(** * Atlas property analysis: scraper, investment metrics and scoring

    A shallow embedding of the server side of the Atlas property analyser
    ([propertyScraperService.js], [parsers.js] and the scoring function of
    the API server) together with the properties its specification states.

    JavaScript numbers are IEEE 754 binary64 values: they are modelled by
    Rocq's primitive floats, whose operations round exactly as the
    JavaScript ones do.  JavaScript values are modelled by the type
    [value]; an operation that can throw returns a [result]. *)

From Stdlib Require Import ZArith Lia Bool List String Ascii Floats.
From Stdlib Require Import DecimalString.
From stdpp Require Import base option gmap strings.

Set Warnings "-inexact-float,-register-all".
#[local] Arguments String.append !_ _ / : simpl nomatch.
Local Open Scope Z_scope.

(* ------------------------------------------------------------------ *)
(** * Exceptions and results *)

(** What a [throw] carries.  [TypeError] is raised by the runtime itself
    (reading a property of [undefined], calling something that is not a
    function); [Error] is [new Error(message)]; [HostError] stands for a
    rejection coming from a collaborator (browser, network, AI client). *)
Inductive exn : Type :=
| TypeError : exn
| Error (message : string) : exn
| HostError (message : string) : exn.

Inductive result (A : Type) : Type :=
| Ok (a : A) : result A
| Throw (e : exn) : result A.
Arguments Ok {A} a.
Arguments Throw {A} e.

Definition bind {A B : Type} (m : result A) (k : A -> result B) : result B :=
  match m with
  | Ok a => k a
  | Throw e => Throw e
  end.

Notation "'let*' x ':=' m 'in' k" := (bind m (fun x => k))
  (at level 10, x name, m at level 100, k at level 200).

(** [try { body } catch (error) { handler }] *)
Definition try_catch {A : Type} (body : result A) (handler : exn -> result A)
  : result A :=
  match body with
  | Ok a => Ok a
  | Throw e => handler e
  end.

(** [error.message]; the wording of a runtime TypeError is the engine's
    and is not modelled. *)
Definition message_of (e : exn) : string :=
  match e with
  | TypeError => "TypeError"
  | Error m => m
  | HostError m => m
  end.

(* ------------------------------------------------------------------ *)
(** * JavaScript values *)

(** Plain data, as it travels through the pipeline: the results of
    [page.evaluate], the records the parsers build, JSON bodies.  An object
    is its list of own properties in insertion order. *)
Inductive value : Type :=
| VUndefined : value
| VNull : value
| VBool (b : bool) : value
| VNumber (f : float) : value
| VString (s : string) : value
| VArray (items : list value) : value
| VObject (fields : list (string * value)) : value.

Fixpoint lookup_field (k : string) (fields : list (string * value)) : value :=
  match fields with
  | [] => VUndefined
  | (k', v) :: rest => if String.eqb k k' then v else lookup_field k rest
  end.

(** [o.k] for the property names this program reads, none of which is a
    built-in property of strings, numbers, booleans or arrays. *)
Definition get (o : value) (k : string) : result value :=
  match o with
  | VUndefined | VNull => Throw TypeError
  | VObject fields => Ok (lookup_field k fields)
  | _ => Ok VUndefined
  end.

(** [{ ...fields, k: v }]: an existing key keeps its place and takes the
    new value, a new key is appended. *)
Fixpoint set_field (k : string) (v : value) (fields : list (string * value))
  : list (string * value) :=
  match fields with
  | [] => [(k, v)]
  | (k', v') :: rest =>
      if String.eqb k k' then (k, v) :: rest else (k', v') :: set_field k v rest
  end.

(* ------------------------------------------------------------------ *)
(** * Numbers *)

Definition is_neg_zero (x : float) : bool :=
  match classify x with
  | NZero => true
  | _ => false
  end.

(** [Math.min(a, b)] *)
Definition Math_min (a b : float) : float :=
  if is_nan a || is_nan b then nan
  else if (a <? b)%float then a
  else if (b <? a)%float then b
  else if is_neg_zero a then a else b.

(** ToBoolean *)
Definition truthy (v : value) : bool :=
  match v with
  | VUndefined | VNull => false
  | VBool b => b
  | VNumber f => negb (is_nan f || is_zero f)
  | VString s => negb (String.eqb s "")
  | VArray _ | VObject _ => true
  end.

(** [a || b] *)
Definition or_else (a b : value) : value := if truthy a then a else b.

(* ------------------------------------------------------------------ *)
(** * Strings *)

(** Strings are sequences of 8-bit code units (the Latin-1 range). *)
Definition lower_ascii (c : ascii) : ascii :=
  let n := N_of_ascii c in
  if ((65 <=? n)%N && (n <=? 90)%N)
     || ((192 <=? n)%N && (n <=? 222)%N && negb (n =? 215)%N)
  then ascii_of_N (n + 32) else c.

Fixpoint toLowerCase (s : string) : string :=
  match s with
  | EmptyString => EmptyString
  | String c rest => String (lower_ascii c) (toLowerCase rest)
  end.

Fixpoint starts_with (t s : string) : bool :=
  match t, s with
  | EmptyString, _ => true
  | String a t', String b s' => Ascii.eqb a b && starts_with t' s'
  | String _ _, EmptyString => false
  end.

(** [s.includes(t)] *)
Fixpoint includes (s t : string) : bool :=
  starts_with t s ||
  match s with
  | EmptyString => false
  | String _ rest => includes rest t
  end.

(** [v.toLowerCase()]: only a string has the method. *)
Definition call_toLowerCase (v : value) : result string :=
  match v with
  | VString s => Ok (toLowerCase s)
  | _ => Throw TypeError
  end.

(** [s.trim()] *)
Definition is_space (c : ascii) : bool :=
  let n := N_of_ascii c in
  ((9 <=? n)%N && (n <=? 13)%N) || (n =? 32)%N || (n =? 160)%N.

Fixpoint trim_start (s : string) : string :=
  match s with
  | String c rest => if is_space c then trim_start rest else s
  | EmptyString => EmptyString
  end.

Fixpoint trim_end (s : string) : string :=
  match s with
  | EmptyString => EmptyString
  | String c rest =>
      match trim_end rest with
      | EmptyString => if is_space c then EmptyString else String c EmptyString
      | rest' => String c rest'
      end
  end.

Definition trim (s : string) : string := trim_end (trim_start s).

Definition is_digit (c : ascii) : bool :=
  let n := N_of_ascii c in (48 <=? n)%N && (n <=? 57)%N.

Fixpoint filter_string (keep : ascii -> bool) (s : string) : string :=
  match s with
  | EmptyString => EmptyString
  | String c rest =>
      if keep c then String c (filter_string keep rest)
      else filter_string keep rest
  end.

Fixpoint take_while (keep : ascii -> bool) (s : string) : string :=
  match s with
  | EmptyString => EmptyString
  | String c rest => if keep c then String c (take_while keep rest) else EmptyString
  end.

(* ------------------------------------------------------------------ *)
(** * Numbers, continued *)

(** The Number value of a mathematical integer: round to nearest, ties to
    even. *)
Definition Z_to_float (z : Z) : float :=
  if Z.abs z <? 2 ^ 62 then
    let f := of_uint63 (Uint63.of_Z (Z.abs z)) in
    if z <? 0 then (- f)%float else f
  else SF2Prim (binary_normalize prec emax z 0 false).

(** [Math.round(x)]: the integer closest to [x], a tie going towards
    +Infinity; zeros, infinities and NaN are returned as they are, and a
    result of zero keeps the sign of [x]. *)
Definition Math_round (x : float) : float :=
  match Prim2SF x with
  | S754_finite s m e =>
      if 0 <=? e then x
      else
        let d := 2 ^ (- e) in
        let n := if s then Z.neg m else Z.pos m in
        let r := (2 * n + d) / (2 * d) in
        if r =? 0 then (if s then neg_zero else zero)
        else Z_to_float r
  | _ => x
  end.

Fixpoint digits_value (acc : Z) (s : string) : Z :=
  match s with
  | EmptyString => acc
  | String c rest =>
      digits_value (10 * acc + (Z.of_N (N_of_ascii c) - 48)) rest
  end.

(** [parseInt(s, 10)]: leading white space, an optional sign, then the
    longest run of decimal digits; NaN when that run is empty.  (Without a
    radix argument the result is the same unless the digits start with
    0x.) *)
Definition parseInt (s : string) : float :=
  let s := trim_start s in
  let '(neg, s) :=
    match s with
    | String "-" rest => (true, rest)
    | String "+" rest => (false, rest)
    | _ => (false, s)
    end in
  match take_while is_digit s with
  | EmptyString => nan
  | ds => let f := Z_to_float (digits_value 0 ds) in
          if neg then (- f)%float else f
  end.

(* ------------------------------------------------------------------ *)
(** * The host *)

(** What the JavaScript engine and the process environment provide and
    this development does not define. *)
Record Host : Type := {
  (** ToNumber of a value that is not undefined, null, a boolean or a
      number: the numeric reading of a string, or ToPrimitive of an array
      or object, which may throw. *)
  ToNumberHost : value -> result float;
  (** [Math.pow], whose precision is left to the engine. *)
  Math_pow : float -> float -> float;
  (** [x.toFixed(2)] on a number. *)
  toFixed2 : float -> string;
  (** [process.env.OPENAI_API_KEY] *)
  OPENAI_API_KEY : option string;
  (** [openai.chat.completions.create], called with the record that is
      serialised into the prompt; a rejected promise is a [Throw]. *)
  openai_create : value -> result value
}.

Section Service.

Variable h : Host.

Definition ToNumber (v : value) : result float :=
  match v with
  | VUndefined => Ok nan
  | VNull => Ok 0%float
  | VBool b => Ok (if b then 1%float else 0%float)
  | VNumber f => Ok f
  | _ => ToNumberHost h v
  end.

(* ------------------------------------------------------------------ *)
(** * propertyScraperService.js: assessRisk *)

Definition riskCategory (score : float) : string :=
  if (85 <=? score)%float then "Very Low"
  else if (70 <=? score)%float then "Low"
  else if (50 <=? score)%float then "Medium"
  else if (30 <=? score)%float then "High"
  else "Very High".

(** The condition of the first [if]; the right operand of [||] reads the
    location again, and only when the left one is false. *)
Definition is_prime_location (propertyData : value) : result bool :=
  let* location := get propertyData "location" in
  let* lower := call_toLowerCase location in
  if includes lower "madrid" then Ok true
  else
    let* location := get propertyData "location" in
    let* lower := call_toLowerCase location in
    Ok (includes lower "barcelona").

Definition assessRisk (propertyData : value) : result value :=
  let score := 70%float in
  let* prime := is_prime_location propertyData in
  let score := if prime then (score + 10)%float else score in
  let* rent := get propertyData "estimatedMonthlyRent" in
  let* rent := ToNumber rent in
  let* price := get propertyData "purchasePrice" in
  let* price := ToNumber price in
  let rentalYield := (rent * 12 / price * 100)%float in
  let score :=
    if (5 <? rentalYield)%float then (score + 10)%float
    else if (rentalYield <? 3)%float then (score - 10)%float
    else score in
  let* location := get propertyData "location" in
  let* propertyType := get propertyData "propertyType" in
  Ok (VObject
        [("overall", VString (riskCategory score));
         ("score", VNumber score);
         ("factors", VObject [("location", location);
                              ("propertyType", propertyType);
                              ("rentalYield", VNumber rentalYield)])]).

(* ------------------------------------------------------------------ *)
(** * propertyScraperService.js: calculateInvestmentMetrics *)

(** The own properties copied by [{ ...propertyData }].  Only an object
    gets this far: for any other value [assessRisk] has thrown, its
    location being undefined. *)
Definition spread (v : value) : list (string * value) :=
  match v with
  | VObject fields => fields
  | _ => []
  end.

(** Lines 119 to 157 and the [financialMetrics] literal of the result:
    the figures, from the numeric readings of price, rent and area.  The
    first two fields repeat the destructured values as they are. *)
Definition financialMetrics (purchasePrice estimatedMonthlyRent : value)
    (price rent area : float) : value :=
  let annualRentalIncome := (rent * 12)%float in
  let propertyTax := (price * 0.005)%float in
  let insurance := (price * 0.002)%float in
  let maintenance := (price * 0.01)%float in
  let managementFees := (annualRentalIncome * 0.08)%float in
  let totalExpenses :=
    (propertyTax + insurance + maintenance + managementFees)%float in
  let netOperatingIncome := (annualRentalIncome - totalExpenses)%float in
  let capRate := (netOperatingIncome / price * 100)%float in
  let downPayment := (price * 0.3)%float in
  let loanAmount := (price - downPayment)%float in
  let interestRate := 3.5%float in
  let loanTerm := 30%float in
  let monthlyInterestRate := (interestRate / 100 / 12)%float in
  let totalPayments := (loanTerm * 12)%float in
  let monthlyMortgagePayment :=
    ((loanAmount * monthlyInterestRate
      * Math_pow h (1 + monthlyInterestRate) totalPayments)
     / (Math_pow h (1 + monthlyInterestRate) totalPayments - 1))%float in
  let annualMortgagePayment := (monthlyMortgagePayment * 12)%float in
  let annualCashFlow := (netOperatingIncome - annualMortgagePayment)%float in
  let cashOnCashReturn := (annualCashFlow / downPayment * 100)%float in
  let rentalYield := (annualRentalIncome / price * 100)%float in
  let pricePerSquareMeter := (price / area)%float in
  VObject
    [("purchasePrice", purchasePrice);
     ("estimatedMonthlyRent", estimatedMonthlyRent);
     ("annualRentalIncome", VNumber annualRentalIncome);
     ("expenses",
       VObject [("propertyTax", VNumber propertyTax);
                ("insurance", VNumber insurance);
                ("maintenance", VNumber maintenance);
                ("managementFees", VNumber managementFees)]);
     ("totalExpenses", VNumber totalExpenses);
     ("netOperatingIncome", VNumber netOperatingIncome);
     ("capRate", VNumber capRate);
     ("cashOnCashReturn", VNumber cashOnCashReturn);
     ("rentalYield", VNumber rentalYield);
     ("pricePerSquareMeter", VNumber pricePerSquareMeter);
     ("breakEvenOccupancy",
       VNumber (totalExpenses / annualRentalIncome * 100)%float);
     ("mortgagePayment", VNumber monthlyMortgagePayment)].

(** The numeric readings happen where the arithmetic first needs them:
    the rent at line 120, the price at line 123, the area at line 157. *)
Definition calculateInvestmentMetrics (propertyData : value) : result value :=
  let* purchasePrice := get propertyData "purchasePrice" in
  let* estimatedMonthlyRent := get propertyData "estimatedMonthlyRent" in
  let* squareMeters := get propertyData "squareMeters" in
  let* location := get propertyData "location" in
  let* rent := ToNumber estimatedMonthlyRent in
  let* price := ToNumber purchasePrice in
  let* area := ToNumber squareMeters in
  let* riskAssessment := assessRisk propertyData in
  Ok (VObject
        (set_field "riskAssessment" riskAssessment
           (set_field "financialMetrics"
              (financialMetrics purchasePrice estimatedMonthlyRent price rent area)
              (spread propertyData)))).

End Service.

(* ------------------------------------------------------------------ *)
(** * parsers.js *)

(** The part of the DOM the parsers look at.  An element carries its
    [textContent], its [nextElementSibling] and the [li] elements below
    it. *)
Inductive element : Type :=
| Element (textContent : string) (nextElementSibling : option element)
          (li_items : list element) : element.

Definition textContent (e : element) : string :=
  match e with Element t _ _ => t end.
Definition nextElementSibling (e : element) : option element :=
  match e with Element _ n _ => n end.
Definition li_items (e : element) : list element :=
  match e with Element _ _ l => l end.

(** A loaded page: [document.querySelector], [document.querySelectorAll]
    and [page.url()]. *)
Record Page : Type := {
  querySelector : string -> option element;
  querySelectorAll : string -> list element;
  page_url : string
}.

Definition dq : string := String (ascii_of_nat 34) EmptyString.

(** The selector [[data-testid="name"]] *)
Definition testid (name : string) : string :=
  "[data-testid=" +:+ dq +:+ name +:+ dq +:+ "]".

(** [text.match(/\\d+/)]: the pattern, as written in the source, is a
    backslash followed by one or more letters d.  The result is the first
    such match, or null. *)
Fixpoint match_backslash_d (text : string) : option string :=
  match text with
  | EmptyString => None
  | String c rest =>
      if Ascii.eqb c "\" then
        match take_while (Ascii.eqb "d") rest with
        | EmptyString => match_backslash_d rest
        | ds => Some (String c ds)
        end
      else match_backslash_d rest
  end.

(** [parseInt(text.match(/\\d+/)[0], 10)]: indexing null throws. *)
Definition parse_number_in (text : string) : result value :=
  match match_backslash_d text with
  | None => Throw TypeError
  | Some m => Ok (VNumber (parseInt m))
  end.

(** The price: null without the element, else
    [parseInt(priceText.replace(/[^0-9]/g, ''), 10)]. *)
Definition extract_price (page : Page) (selector : string) : value :=
  match querySelector page selector with
  | None => VNull
  | Some priceElement =>
      let priceText := trim (textContent priceElement) in
      VNumber (parseInt (filter_string is_digit priceText))
  end.

Definition text_or_empty (e : option element) : string :=
  match e with
  | Some el => trim (textContent el)
  | None => ""
  end.

(** [let estimatedMonthlyRent; if (purchasePrice) { ... }] *)
Definition estimate_rent (purchasePrice : value) : value :=
  match purchasePrice with
  | VNumber price =>
      if truthy purchasePrice
      then VNumber (Math_round (price * 0.045 / 12)%float)
      else VUndefined
  | _ => VUndefined
  end.

(** [if (element) { details.key = parseInt(...) }] *)
Definition detail_number (page : Page) (selector key : string)
    (details : list (string * value)) : result (list (string * value)) :=
  match querySelector page selector with
  | None => Ok details
  | Some el =>
      let* n := parse_number_in (trim (textContent el)) in
      Ok (set_field key n details)
  end.

Definition source_of (platform : string) (page : Page) (scrapedAt : string)
  : value :=
  VObject [("platform", VString platform);
           ("url", VString (page_url page));
           ("scrapedAt", VString scrapedAt)].

Definition parse_failure (site : string) (error : exn) : result value :=
  Throw (Error ("Failed to parse " +:+ site +:+ " data: " +:+ message_of error)).

(** [scrapedAt] is [new Date().toISOString()] at the time of the call. *)
Definition parseIdealista (page : Page) (scrapedAt : string) : result value :=
  try_catch
    (let propertyAddress :=
       let address := text_or_empty (querySelector page ".main-info__title-main") in
       let location := text_or_empty (querySelector page ".main-info__title-minor") in
       trim (address +:+ ", " +:+ location) in
     let purchasePrice := extract_price page (testid "price") in
     let* propertyDetails :=
       (let* d := detail_number page (testid "house-surface-area") "squareMeters" [] in
        let* d := detail_number page (testid "house-bedrooms") "bedrooms" d in
        let* d := detail_number page (testid "house-bathrooms") "bathrooms" d in
        match querySelector page ".property-type" with
        | Some el => Ok (set_field "propertyType" (VString (trim (textContent el))) d)
        | None => Ok d
        end) in
     let features :=
       match querySelector page ".details-property-feature-one" with
       | None => VArray []
       | Some featuresContainer =>
           VArray (List.map (fun item => VString (trim (textContent item)))
                            (li_items featuresContainer))
       end in
     let locationData := text_or_empty (querySelector page ".main-info__title-minor") in
     let estimatedMonthlyRent := estimate_rent purchasePrice in
     Ok (VObject
           [("propertyAddress", VString propertyAddress);
            ("location", VString locationData);
            ("purchasePrice", purchasePrice);
            ("estimatedMonthlyRent", estimatedMonthlyRent);
            ("squareMeters",
              or_else (lookup_field "squareMeters" propertyDetails) (VNumber 0));
            ("bedrooms",
              or_else (lookup_field "bedrooms" propertyDetails) (VNumber 0));
            ("bathrooms",
              or_else (lookup_field "bathrooms" propertyDetails) (VNumber 0));
            ("propertyType",
              or_else (lookup_field "propertyType" propertyDetails)
                      (VString "Apartment"));
            ("features", features);
            ("source", source_of "idealista" page scrapedAt)]))
    (parse_failure "Idealista").

(** The body of the [forEach] over the feature labels of a Fotocasa page. *)
Definition fotocasa_feature (element : element)
    (details : list (string * value)) : result (list (string * value)) :=
  let featureText := trim (textContent element) in
  let valueText := text_or_empty (nextElementSibling element) in
  if includes featureText "Superficie" then
    let* n := parse_number_in valueText in Ok (set_field "squareMeters" n details)
  else if includes featureText "Habitaciones" then
    let* n := parse_number_in valueText in Ok (set_field "bedrooms" n details)
  else if includes featureText ("Ba" +:+ String (ascii_of_nat 241) "os") then
    let* n := parse_number_in valueText in Ok (set_field "bathrooms" n details)
  else if includes featureText "Tipo" then
    Ok (set_field "propertyType" (VString valueText) details)
  else Ok details.

Fixpoint fotocasa_features (elements : list element)
    (details : list (string * value)) : result (list (string * value)) :=
  match elements with
  | [] => Ok details
  | el :: rest =>
      let* details := fotocasa_feature el details in
      fotocasa_features rest details
  end.

Definition parseFotocasa (page : Page) (scrapedAt : string) : result value :=
  try_catch
    (let propertyAddress :=
       text_or_empty (querySelector page ".re-DetailHeader-propertyTitle") in
     let purchasePrice := extract_price page ".re-DetailHeader-price" in
     let* propertyDetails :=
       fotocasa_features
         (querySelectorAll page ".re-DetailFeaturesList-featureLabel") [] in
     let locationData := text_or_empty (querySelector page ".re-DetailMap-address") in
     let estimatedMonthlyRent := estimate_rent purchasePrice in
     Ok (VObject
           [("propertyAddress", VString propertyAddress);
            ("location", VString locationData);
            ("purchasePrice", purchasePrice);
            ("estimatedMonthlyRent", estimatedMonthlyRent);
            ("squareMeters",
              or_else (lookup_field "squareMeters" propertyDetails) (VNumber 0));
            ("bedrooms",
              or_else (lookup_field "bedrooms" propertyDetails) (VNumber 0));
            ("bathrooms",
              or_else (lookup_field "bathrooms" propertyDetails) (VNumber 0));
            ("propertyType",
              or_else (lookup_field "propertyType" propertyDetails)
                      (VString "Apartment"));
            ("source", source_of "fotocasa" page scrapedAt)]))
    (parse_failure "Fotocasa").

Definition parseHabitaclia (page : Page) (scrapedAt : string) : result value :=
  try_catch
    (let propertyAddress := text_or_empty (querySelector page ".property-title") in
     let purchasePrice := extract_price page ".price" in
     let* propertyDetails :=
       (let* d := detail_number page ".feature-container .icon-m2 + span"
                    "squareMeters" [] in
        let* d := detail_number page ".feature-container .icon-rooms + span"
                    "bedrooms" d in
        let* d := detail_number page ".feature-container .icon-bathrooms + span"
                    "bathrooms" d in
        match List.last (List.map Some (querySelectorAll page ".breadcrumb li")) None with
        | Some el => Ok (set_field "propertyType" (VString (trim (textContent el))) d)
        | None => Ok d
        end) in
     let locationData := text_or_empty (querySelector page ".location") in
     let estimatedMonthlyRent := estimate_rent purchasePrice in
     Ok (VObject
           [("propertyAddress", VString propertyAddress);
            ("location", VString locationData);
            ("purchasePrice", purchasePrice);
            ("estimatedMonthlyRent", estimatedMonthlyRent);
            ("squareMeters",
              or_else (lookup_field "squareMeters" propertyDetails) (VNumber 0));
            ("bedrooms",
              or_else (lookup_field "bedrooms" propertyDetails) (VNumber 0));
            ("bathrooms",
              or_else (lookup_field "bathrooms" propertyDetails) (VNumber 0));
            ("propertyType",
              or_else (lookup_field "propertyType" propertyDetails)
                      (VString "Apartment"));
            ("source", source_of "habitaclia" page scrapedAt)]))
    (parse_failure "Habitaclia").

(* ------------------------------------------------------------------ *)
(** * propertyScraperService.js: scrapeProperty *)

Definition CACHE_TTL : Z := 3600000.

(** A cache entry: [{ timestamp, data }].  Times are [Date.now()] readings,
    whole milliseconds, kept as integers. *)
Record CacheEntry : Type := {
  timestamp : Z;
  data : value
}.

(** What the browser layer is asked to do, in order. *)
Inductive event : Type :=
| Launch : event
| Navigate (url : string) : event
| Close : event.

(** The state of the process: the module-level [propertyCache] and the log
    of the browser work done so far. *)
Record World : Type := {
  propertyCache : gmap string CacheEntry;
  browser_log : list event
}.

(** What one call of [scrapeProperty] meets outside the program. *)
Record Session : Type := {
  (** [Date.now()] at the cache test *)
  now_at_check : Z;
  (** [puppeteer.launch] *)
  launch : result unit;
  (** [browser.newPage()] up to [page.content()], for the given url *)
  load : string -> result Page;
  (** [new Date().toISOString()] inside the parser *)
  iso_now : string;
  (** [Date.now()] at the cache insertion *)
  now_at_store : Z;
  (** [browser.close()] *)
  close : result unit
}.

Definition log (e : event) (w : World) : World :=
  {| propertyCache := propertyCache w; browser_log := browser_log w ++ [e] |}.

Definition cache_set (key : string) (entry : CacheEntry) (w : World) : World :=
  {| propertyCache := <[key := entry]> (propertyCache w);
     browser_log := browser_log w |}.

(** The [switch (platform.toLowerCase())] *)
Definition dispatch (platform : string) (page : Page) (scrapedAt : string)
  : result value :=
  let tag := toLowerCase platform in
  if String.eqb tag "idealista" then parseIdealista page scrapedAt
  else if String.eqb tag "fotocasa" then parseFotocasa page scrapedAt
  else if String.eqb tag "habitaclia" then parseHabitaclia page scrapedAt
  else Throw (Error ("Unsupported platform: " +:+ platform)).

(** The [finally] block once the browser exists: [browser.close()] runs,
    and if it throws, its error replaces the outcome of the [try]. *)
Definition finally_close {A : Type} (s : Session) (outcome : result A) (w : World)
  : result A * World :=
  match close s with
  | Ok _ => (outcome, log Close w)
  | Throw e => (Throw e, log Close w)
  end.

Definition cache_hit (s : Session) (key : string) (w : World) : option value :=
  match propertyCache w !! key with
  | Some cachedData =>
      if now_at_check s - CACHE_TTL <? timestamp cachedData
      then Some (data cachedData) else None
  | None => None
  end.

Definition scrapeProperty (s : Session) (url platform : string) (w : World)
  : result value * World :=
  let cacheKey := platform +:+ ":" +:+ url in
  match cache_hit s cacheKey w with
  | Some cached => (Ok cached, w)
  | None =>
      let w := log Launch w in
      match launch s with
      | Throw error => (Throw error, w)
      | Ok _ =>
          let w := log (Navigate url) w in
          match (let* page := load s url in dispatch platform page (iso_now s)) with
          | Ok propertyData =>
              let w := cache_set cacheKey
                         {| timestamp := now_at_store s; data := propertyData |} w in
              finally_close s (Ok propertyData) w
          | Throw error => finally_close s (Throw error) w
          end
      end
  end.

(* ------------------------------------------------------------------ *)
(** * server.js: generateAIAnalysis *)

Section Scoring.

Variable h : Host.

(** Lines 81 to 86: the three capped components and their rounded sum. *)
Definition rentalYieldScore (rentalYield : float) : float :=
  Math_min (rentalYield * 10) 50.
Definition riskScore (score : float) : float :=
  Math_min (score * 0.3) 30.
Definition locationScore (squareMeters : float) : float :=
  Math_min ((if (70 <? squareMeters)%float then 80 else 60) / 20 * 10) 20.

Definition totalScore (propertyData : value) : result float :=
  let* financialMetrics := get propertyData "financialMetrics" in
  let* rentalYield := get financialMetrics "rentalYield" in
  let* rentalYield := ToNumber h rentalYield in
  let* riskAssessment := get propertyData "riskAssessment" in
  let* score := get riskAssessment "score" in
  let* score := ToNumber h score in
  let* squareMeters := get propertyData "squareMeters" in
  let* squareMeters := ToNumber h squareMeters in
  Ok (Math_round (rentalYieldScore rentalYield + riskScore score
                  + locationScore squareMeters)%float).

(** [choices[0]] *)
Definition get_first (v : value) : result value :=
  match v with
  | VUndefined | VNull => Throw TypeError
  | VArray items => Ok (List.hd VUndefined items)
  | VString (String c _) => Ok (VString (String c EmptyString))
  | VObject fields => Ok (lookup_field "0" fields)
  | _ => Ok VUndefined
  end.

(** [v?.k] *)
Definition get_optional (v : value) (k : string) : result value :=
  match v with
  | VUndefined | VNull => Ok VUndefined
  | _ => get v k
  end.

Definition is_line_terminator (c : ascii) : bool :=
  let n := N_of_ascii c in (n =? 10)%N || (n =? 13)%N.

(** Match [.*?(\d+)] at the start of [s]: skip as few characters of the
    line as possible up to a digit and capture the whole run of digits. *)
Fixpoint lazy_digits (s : string) : option string :=
  match s with
  | EmptyString => None
  | String c rest =>
      if is_digit c then Some (take_while is_digit s)
      else if is_line_terminator c then None
      else lazy_digits rest
  end.

Fixpoint starts_with_ci (t s : string) : option string :=
  match t, s with
  | EmptyString, _ => Some s
  | String a t', String b s' =>
      if Ascii.eqb a (lower_ascii b) then starts_with_ci t' s' else None
  | String _ _, EmptyString => None
  end.

(** [aiResponse.match(/score.*?(\d+)/i)]: the capture of the leftmost
    match, or None for null. *)
Fixpoint match_score (s : string) : option string :=
  match
    match starts_with_ci "score" s with
    | Some after => lazy_digits after
    | None => None
    end
  with
  | Some digits => Some digits
  | None =>
      match s with
      | EmptyString => None
      | String _ rest => match_score rest
      end
  end.

(** [aiResponse.match(...)]: only a string has the method. *)
Definition call_match (aiResponse : value) : result (option string) :=
  match aiResponse with
  | VString s => Ok (match_score s)
  | _ => Throw TypeError
  end.

(** Lines 89 to 121: the answer of the AI path, or None when the program
    goes on to the [return] of line 123. *)
Definition aiAnalysis (propertyData : value) : result (option value) :=
  match OPENAI_API_KEY h with
  | Some key =>
      if String.eqb key "" then Ok None
      else
        try_catch
          (let* response := openai_create h propertyData in
           let* choices := get response "choices" in
           let* first := get_first choices in
           let* message := get_optional first "message" in
           let* content := get_optional message "content" in
           let aiResponse := or_else content (VString "") in
           let* scoreMatch := call_match aiResponse in
           match scoreMatch with
           | Some digits =>
               Ok (Some (VObject [("score", VNumber (parseInt digits));
                                  ("analysis", aiResponse)]))
           | None => Ok None
           end)
          (fun error => Ok None)
  | None => Ok None
  end.

(** [v.toFixed(2)]: only a number has the method. *)
Definition call_toFixed2 (v : value) : result string :=
  match v with
  | VNumber f => Ok (toFixed2 h f)
  | _ => Throw TypeError
  end.

(** The template string of line 125. *)
Definition heuristicAnalysis (propertyData : value) : result string :=
  let* financialMetrics := get propertyData "financialMetrics" in
  let* rentalYield := get financialMetrics "rentalYield" in
  let* yield_text := call_toFixed2 rentalYield in
  let* financialMetrics := get propertyData "financialMetrics" in
  let* rentalYield := get financialMetrics "rentalYield" in
  let* rentalYield := ToNumber h rentalYield in
  let verdict := if (5 <? rentalYield)%float then "good" else "average" in
  let* riskAssessment := get propertyData "riskAssessment" in
  let* overall := get riskAssessment "overall" in
  let* overall := call_toLowerCase overall in
  Ok ("Property analysis complete. This property has a rental yield of "
      +:+ yield_text +:+ "%, which is " +:+ verdict
      +:+ " for the Spanish market. The risk assessment is " +:+ overall
      +:+ ", and the location scores are excellent.").

Definition fallbackAnalysis : value :=
  VObject
    [("score", VNumber 70);
     ("analysis",
       VString "Analysis could not be completed. Using estimated score based on available data.")].

Definition generateAIAnalysis (propertyData : value) : result value :=
  try_catch
    (let* totalScore := totalScore propertyData in
     let* ai := aiAnalysis propertyData in
     match ai with
     | Some answer => Ok answer
     | None =>
         let* analysis := heuristicAnalysis propertyData in
         Ok (VObject [("score", VNumber totalScore);
                      ("analysis", VString analysis)])
     end)
    (fun error => Ok fallbackAnalysis).

End Scoring.

(* ------------------------------------------------------------------ *)
(** * The specification's vocabulary *)

(** A normalized property record, as far as the metrics engine reads it:
    a string location and numeric price, rent and area. *)
Definition property_record (p : value) (location : string)
    (purchasePrice estimatedMonthlyRent squareMeters : float) : Prop :=
  get p "location" = Ok (VString location)
  /\ get p "purchasePrice" = Ok (VNumber purchasePrice)
  /\ get p "estimatedMonthlyRent" = Ok (VNumber estimatedMonthlyRent)
  /\ get p "squareMeters" = Ok (VNumber squareMeters).

(** What the risk assessment reads: a string location, and a price and a
    rent with numeric readings. *)
Definition risk_inputs (h : Host) (p : value) (location : string)
    (price rent : float) : Prop :=
  get p "location" = Ok (VString location)
  /\ (exists v, get p "purchasePrice" = Ok v /\ ToNumber h v = Ok price)
  /\ (exists v, get p "estimatedMonthlyRent" = Ok v /\ ToNumber h v = Ok rent).

(** [t] occurs in [s] as a substring, letter case apart ([t] is given in
    lower case). *)
Definition contains_ci (s t : string) : Prop :=
  exists before middle after,
    s = before +:+ middle +:+ after /\ toLowerCase middle = t.

(** The score of [assessRisk] after both adjustments, as the code
    computes it. *)
Definition adjusted_score (prime : bool) (rentalYield : float) : float :=
  let score := if prime then (70 + 10)%float else 70%float in
  if (5 <? rentalYield)%float then (score + 10)%float
  else if (rentalYield <? 3)%float then (score - 10)%float
  else score.

(** The risk score as the specification words it, over the integers. *)
Definition risk_score_spec (prime : bool) (rentalYield : float) : Z :=
  70 + (if prime then 10 else 0)
  + (if (5 <? rentalYield)%float then 10
     else if (rentalYield <? 3)%float then -10 else 0).

Definition risk_category_spec (score : Z) : string :=
  if 85 <=? score then "Very Low"
  else if 70 <=? score then "Low"
  else if 50 <=? score then "Medium"
  else if 30 <=? score then "High"
  else "Very High".

(** ** Exact values of binary64 numbers *)

(** Every finite binary64 number is a whole multiple of 2^-1074:
    [scaled m e] is the value m x 2^e counted in that unit. *)
Definition scaled (m e : Z) : Z := m * 2 ^ (e + 1074).

(** [x <= v] for a bound [v] counted in the same unit; NaN is below
    nothing. *)
Definition SFle (x : spec_float) (v : Z) : Prop :=
  match x with
  | S754_nan => False
  | S754_infinity s => s = true
  | S754_zero _ => 0 <= v
  | S754_finite s m e => scaled (cond_Zopp s (Z.pos m)) e <= v
  end.

(** The number [x] is at most the integer [c]. *)
Definition at_most (x : float) (c : Z) : Prop := SFle (Prim2SF x) (scaled c 0).

Definition nan_or_at_most (x : float) (c : Z) : Prop :=
  Prim2SF x = S754_nan \/ at_most x c.

(* ------------------------------------------------------------------ *)
(** * Sample inputs *)

Fixpoint pow_nat (x : float) (n : nat) : float :=
  match n with
  | O => 1%float
  | S n' => (x * pow_nat x n')%float
  end.

(** The whole part of a positive number, 0 for anything else. *)
Definition whole_part (y : float) : nat :=
  match Prim2SF y with
  | S754_finite false m e =>
      Z.to_nat (if 0 <=? e then Z.pos m * 2 ^ e else Z.pos m / 2 ^ (- e))
  | _ => O
  end.

Definition decimal (n : Z) : string :=
  NilZero.string_of_uint (N.to_uint (Z.to_N n)).

(** [x.toFixed(2)] for magnitudes below 10^21, where it prints plain
    decimals: the digits of the integer nearest to |x| x 100, a tie going
    up. *)
Definition sample_toFixed2 (x : float) : string :=
  match Prim2SF x with
  | S754_nan => "NaN"
  | S754_infinity s => if s then "-Infinity" else "Infinity"
  | S754_zero _ => "0.00"
  | S754_finite s m e =>
      let n := if 0 <=? e then 100 * Z.pos m * 2 ^ e
               else (200 * Z.pos m + 2 ^ (- e)) / (2 * 2 ^ (- e)) in
      (if s then "-" else "") +:+ decimal (n / 100) +:+ "."
      +:+ (if n mod 100 <? 10 then "0" else "") +:+ decimal (n mod 100)
  end.

(** A host for the examples: no API key, [Math.pow] by repeated
    multiplication for whole exponents, strings and objects read as
    NaN. *)
Definition sample_host : Host := {|
  ToNumberHost := fun _ => Ok nan;
  Math_pow := fun x y => pow_nat x (whole_part y);
  toFixed2 := sample_toFixed2;
  OPENAI_API_KEY := None;
  openai_create := fun _ => Throw (HostError "no client")
|}.

(** The same host with the AI path switched off. *)
Definition without_ai (h : Host) : Host := {|
  ToNumberHost := ToNumberHost h;
  Math_pow := Math_pow h;
  toFixed2 := toFixed2 h;
  OPENAI_API_KEY := None;
  openai_create := openai_create h
|}.

(** The record of the specification's worked example. *)
Definition example_property : value :=
  VObject [("propertyAddress", VString "Calle Gran Via 28, Madrid");
           ("location", VString "Madrid");
           ("purchasePrice", VNumber 450000);
           ("estimatedMonthlyRent", VNumber 1950);
           ("squareMeters", VNumber 90);
           ("bedrooms", VNumber 2);
           ("bathrooms", VNumber 2);
           ("propertyType", VString "Apartment")].

(** The worked example after enrichment. *)
Definition enriched_example : value :=
  match calculateInvestmentMetrics sample_host example_property with
  | Ok r => r
  | Throw _ => VUndefined
  end.

(** The same listing with no area on the page: the parsers then report
    0 square metres. *)
Definition zero_area_property : value :=
  VObject [("propertyAddress", VString "Calle Gran Via 28, Madrid");
           ("location", VString "Madrid");
           ("purchasePrice", VNumber 450000);
           ("estimatedMonthlyRent", VNumber 1950);
           ("squareMeters", VNumber 0);
           ("bedrooms", VNumber 0);
           ("bathrooms", VNumber 0);
           ("propertyType", VString "Apartment")].

Definition empty_page : Page := {|
  querySelector := fun _ => None;
  querySelectorAll := fun _ => [];
  page_url := "https://www.fotocasa.es/vivienda/1"
|}.

Definition empty_world : World :=
  {| propertyCache := ∅; browser_log := [] |}.

(** A session in which the browser works and shows a page without any of
    the elements the parsers look for; the scrape takes four seconds. *)
Definition sample_session (now : Z) : Session := {|
  now_at_check := now;
  launch := Ok tt;
  load := fun _ => Ok empty_page;
  iso_now := "2024-05-01T10:00:00.000Z";
  now_at_store := now + 4000;
  close := Ok tt
|}.

(** A session in which everything works until the browser is closed. *)
Definition failing_close_session (now : Z) : Session := {|
  now_at_check := now;
  launch := Ok tt;
  load := fun _ => Ok empty_page;
  iso_now := "2024-05-01T10:00:00.000Z";
  now_at_store := now + 4000;
  close := Throw (HostError "Target closed")
|}.

(** The platform tags the dispatch knows, letter case apart. *)
Definition supported (platform : string) : bool :=
  let tag := toLowerCase platform in
  String.eqb tag "idealista" || String.eqb tag "fotocasa"
  || String.eqb tag "habitaclia".

(** No element the parsers ask for is on the page. *)
Definition no_selector_matches (page : Page) : Prop :=
  (forall selector, querySelector page selector = None)
  /\ (forall selector, querySelectorAll page selector = []).

(** The defaults of a record parsed from such a page. *)
Definition default_fields (r : value) : Prop :=
  get r "squareMeters" = Ok (VNumber 0)
  /\ get r "bedrooms" = Ok (VNumber 0)
  /\ get r "bathrooms" = Ok (VNumber 0)
  /\ get r "propertyType" = Ok (VString "Apartment")
  /\ (exists address, get r "propertyAddress" = Ok (VString address))
  /\ (exists location, get r "location" = Ok (VString location)).

(* ------------------------------------------------------------------ *)
(** * server.js: the handler of POST /api/property-analysis *)

(** The body of a request, as far as the handler reads it: [url] absent
    or a string, [platform] a string, [useMockData] absent (false) or a
    boolean. *)
Record Request : Type := {
  body_url : option string;
  body_platform : string;
  body_useMockData : bool
}.

(** What [res.status(n).json(body)] sends; [res.json(body)] sends it with
    status 200. *)
Record Response : Type := {
  status : Z;
  json : value
}.

(** What one call of the handler meets outside the program: the session
    of the scrape and the two readings of [new Date().toISOString()], in
    the mock record and in the answer. *)
Record Call : Type := {
  session : Session;
  iso_mock : string;
  iso_response : string
}.

Definition price_point (date : string) (price : float) : value :=
  VObject [("date", VString date); ("price", VNumber price)].

Definition similar_property (address : string) (price sqft pricePerSqft : float)
  : value :=
  VObject [("address", VString address); ("price", VNumber price);
           ("sqft", VNumber sqft); ("pricePerSqft", VNumber pricePerSqft)].

(** The letters i and n of the mock address carry an accent. *)
Definition mockData : list (string * value) :=
  [("propertyAddress",
     VString ("Calle Gran V" +:+ String (ascii_of_nat 237) "a 28, Madrid, Espa"
              +:+ String (ascii_of_nat 241) "a"));
   ("marketTrends",
     VObject
       [("priceHistory",
          VArray [price_point "2023-01" 380000; price_point "2023-04" 395000;
                  price_point "2023-07" 410000; price_point "2023-10" 425000;
                  price_point "2024-01" 440000; price_point "2024-04" 450000]);
        ("rentalYield", VNumber 5.2);
        ("areaGrowth", VNumber 4.8);
        ("similarProperties",
          VArray
            [similar_property ("Calle Gran V" +:+ String (ascii_of_nat 237) "a 30")
               465000 95 4895;
             similar_property "Calle Princesa 15" 445000 90 4944;
             similar_property ("Plaza Espa" +:+ String (ascii_of_nat 241) "a 4")
               490000 100 4900])])].

Definition option_string (s : option string) : value :=
  match s with
  | Some s => VString s
  | None => VUndefined
  end.

(** Lines 153 to 167: the record used instead of a scrape. *)
Definition mockProperty (c : Call) (req : Request) : value :=
  let platform := body_platform req in
  VObject
    (set_field "source"
       (VObject [("platform", VString platform);
                 ("url", or_else (option_string (body_url req))
                                 (VString "https://example.com"));
                 ("scrapedAt", VString (iso_mock c))])
    (set_field "location"
       (VString (if String.eqb platform "idealista" then "Madrid"
                 else if String.eqb platform "fotocasa" then "Barcelona"
                 else "Valencia"))
    (set_field "propertyType" (VString "Apartment")
    (set_field "bathrooms" (VNumber 2)
    (set_field "bedrooms" (VNumber 2)
    (set_field "squareMeters" (VNumber 90)
    (set_field "estimatedMonthlyRent" (VNumber 1950)
    (set_field "purchasePrice" (VNumber 450000) mockData)))))))).

Definition failure (code : Z) (message error : string) : Response :=
  {| status := code;
     json := VObject [("success", VBool false);
                      ("message", VString message);
                      ("error", VString error)] |}.

(** Lines 183 to 206: the metrics, the score and the answer.  An error
    thrown here reaches the outer [catch] of the handler. *)
Definition analyse (h : Host) (c : Call) (req : Request) (propertyData : value)
  : result Response :=
  let* enhancedPropertyData := calculateInvestmentMetrics h propertyData in
  let* aiAnalysis := generateAIAnalysis h enhancedPropertyData in
  let* score := get aiAnalysis "score" in
  let* analysis := get aiAnalysis "analysis" in
  let finalPropertyData :=
    VObject (set_field "aiAnalysis" analysis
               (set_field "atlasScore" score (spread enhancedPropertyData))) in
  Ok {| status := 200;
        json := VObject
                  [("success", VBool true);
                   ("message", VString "Property analysis completed");
                   ("data",
                     VObject [("url", option_string (body_url req));
                              ("scrapedAt", VString (iso_response c));
                              ("propertyDetails", finalPropertyData);
                              ("platform", VString (body_platform req))])] |}.

Definition server_error (r : result Response) : Response :=
  match r with
  | Ok response => response
  | Throw error => failure 500 "Server error" (message_of error)
  end.

Definition property_analysis (h : Host) (c : Call) (req : Request) (w : World)
  : Response * World :=
  if negb (truthy (option_string (body_url req))) && negb (body_useMockData req)
  then (failure 400 "URL is required" "Missing URL", w)
  else if body_useMockData req
  then (server_error (analyse h c req (mockProperty c req)), w)
  else
    match scrapeProperty (session c)
            (match body_url req with Some url => url | None => "" end)
            (body_platform req) w with
    | (Ok scrapedData, w') => (server_error (analyse h c req scrapedData), w')
    | (Throw scrapeError, w') =>
        (failure 400 "Failed to scrape property data" (message_of scrapeError), w')
    end.

(** ** Vocabulary of the further properties *)

(** The record a parser returns, whatever the page: string address and
    location, a price that is null or a number with the rent estimated
    from it, no area and no rooms, a string type, and then the fields
    particular to the site. *)
Definition parsed_record (r : value) : Prop :=
  exists address location price propertyType rest,
    r = VObject
          (("propertyAddress", VString address)
           :: ("location", VString location)
           :: ("purchasePrice", price)
           :: ("estimatedMonthlyRent", estimate_rent price)
           :: ("squareMeters", VNumber 0)
           :: ("bedrooms", VNumber 0)
           :: ("bathrooms", VNumber 0)
           :: ("propertyType", VString propertyType)
           :: rest)
    /\ (price = VNull \/ exists f, price = VNumber f).

(** What the extraction of details can have stored so far: under a
    numeric key nothing or NaN, under the type nothing or a string. *)
Definition details_so_far (details : list (string * value)) : Prop :=
  (forall k, k = "squareMeters" \/ k = "bedrooms" \/ k = "bathrooms" ->
             lookup_field k details = VUndefined
             \/ lookup_field k details = VNumber nan)
  /\ (lookup_field "propertyType" details = VUndefined
      \/ exists s, lookup_field "propertyType" details = VString s).


Fixpoint all_digits (s : string) : bool :=
  match s with
  | EmptyString => true
  | String c rest => is_digit c && all_digits rest
  end.





(** Text that the lazy [.*?] of the score pattern can run over before
    the digits: no digit and no line break. *)
Fixpoint plain_gap (s : string) : bool :=
  match s with
  | EmptyString => true
  | String c rest => negb (is_digit c) && negb (is_line_terminator c)
                     && plain_gap rest
  end.

Definition starts_with_digit (s : string) : bool :=
  match s with
  | String c _ => is_digit c
  | EmptyString => false
  end.

(** Every cache entry holds a record of the parsers. *)
Definition cache_holds_records (w : World) : Prop :=
  forall key entry,
    propertyCache w !! key = Some entry -> parsed_record (data entry).

(** The request is turned down before any work: no url, or an empty
    one, and no mock data asked for. *)
Definition missing_url (req : Request) : bool :=
  negb (truthy (option_string (body_url req))) && negb (body_useMockData req).

(** A host whose AI client answers with the given text. *)
Definition answering_host (h : Host) (text : string) : Host := {|
  ToNumberHost := ToNumberHost h;
  Math_pow := Math_pow h;
  toFixed2 := toFixed2 h;
  OPENAI_API_KEY := Some "sk-test";
  openai_create := fun _ =>
    Ok (VObject
          [("choices",
             VArray [VObject [("message",
                                VObject [("role", VString "assistant");
                                         ("content", VString text)])]])])
|}.

Definition sample_call (now : Z) : Call := {|
  session := sample_session now;
  iso_mock := "2024-05-01T10:00:00.000Z";
  iso_response := "2024-05-01T10:00:04.000Z"
|}.

(** A Fotocasa page that shows a price and a surface label with its
    value. *)
Definition priced_page : Page := {|
  querySelector := fun selector =>
    if String.eqb selector ".re-DetailHeader-price"
    then Some (Element "450.000 EUR" None [])
    else if String.eqb selector ".re-DetailMap-address"
    then Some (Element " Eixample, Barcelona " None [])
    else None;
  querySelectorAll := fun _ => [];
  page_url := "https://www.fotocasa.es/vivienda/2"
|}.

(* ================================================================== *)
(** * Properties *)

(** ** Results and objects *)

Lemma lookup_set_field_eq k v fields :
  lookup_field k (set_field k v fields) = v.
Proof.
  induction fields as [|[k' v'] rest IH]; simpl.
  - now rewrite String.eqb_refl.
  - destruct (String.eqb k k') eqn:E; simpl.
    + now rewrite String.eqb_refl.
    + now rewrite E.
Qed.

Lemma lookup_set_field_ne k k' v fields :
  k <> k' -> lookup_field k (set_field k' v fields) = lookup_field k fields.
Proof.
  intros Hne. induction fields as [|[k2 v2] rest IH]; simpl.
  - destruct (String.eqb_spec k k'); congruence.
  - destruct (String.eqb_spec k' k2) as [->|Hk]; simpl.
    + destruct (String.eqb_spec k k2); congruence.
    + destruct (String.eqb_spec k k2); auto.
Qed.

Lemma get_object k fields : get (VObject fields) k = Ok (lookup_field k fields).
Proof. reflexivity. Qed.

Lemma get_defined p k v :
  get p k = Ok v -> v <> VUndefined -> exists fields, p = VObject fields.
Proof.
  destruct p; simpl; intros H Hv; try discriminate;
    try (injection H as <-; congruence).
  eauto.
Qed.

(** ** Strings *)

Lemma toLowerCase_app s t :
  toLowerCase (s +:+ t) = toLowerCase s +:+ toLowerCase t.
Proof. induction s; simpl; congruence. Qed.

Lemma toLowerCase_split s a b :
  toLowerCase s = a +:+ b ->
  exists s1 s2, s = s1 +:+ s2 /\ toLowerCase s1 = a /\ toLowerCase s2 = b.
Proof.
  revert s; induction a as [|c a IH]; intros s H.
  - exists EmptyString, s; auto.
  - destruct s as [|c' s]; simpl in H; [discriminate|].
    injection H as Hc Hs. destruct (IH _ Hs) as (s1 & s2 & -> & <- & <-).
    exists (String c' s1), s2. simpl. now rewrite Hc.
Qed.

Lemma starts_with_spec t s :
  starts_with t s = true <-> exists rest, s = t +:+ rest.
Proof.
  revert s; induction t as [|a t IH]; intros s; simpl.
  - split; eauto.
  - destruct s as [|b s].
    + split; [discriminate | intros [r Hr]; discriminate].
    + rewrite andb_true_iff, IH. split.
      * intros [Hab [r ->]]. apply Ascii.eqb_eq in Hab as ->. eauto.
      * intros [r Hr]. injection Hr as -> ->. split; eauto using Ascii.eqb_refl.
Qed.

Lemma includes_spec s t :
  includes s t = true <-> exists before after, s = before +:+ t +:+ after.
Proof.
  induction s as [|c s IH]; simpl; rewrite orb_true_iff, starts_with_spec.
  - split.
    + intros [[r Hr]|]; [|discriminate]. exists EmptyString, r. exact Hr.
    + intros (b & a & H). left. destruct b; [eauto | discriminate].
  - rewrite IH. split.
    + intros [[r Hr]|(b & a & ->)].
      * exists EmptyString, r. exact Hr.
      * exists (String c b), a. reflexivity.
    + intros ([|c' b] & a & H); simpl in H.
      * left; eauto.
      * right. injection H as _ ->. eauto.
Qed.

Lemma includes_lower_spec s t :
  includes (toLowerCase s) t = true <-> contains_ci s t.
Proof.
  rewrite includes_spec. split.
  - intros (b & a & H).
    apply toLowerCase_split in H as (s1 & s23 & -> & _ & H).
    apply toLowerCase_split in H as (s2 & s3 & -> & H & _).
    now exists s1, s2, s3.
  - intros (b & m & a & -> & <-).
    exists (toLowerCase b), (toLowerCase a). now rewrite !toLowerCase_app.
Qed.

(** ** assessRisk *)

Section RiskProperties.

Variable h : Host.

Lemma property_record_risk_inputs p loc price rent area :
  property_record p loc price rent area -> risk_inputs h p loc price rent.
Proof. intros (Hl & Hp & Hr & _). repeat split; eauto. Qed.

Lemma is_prime_location_string p loc :
  get p "location" = Ok (VString loc) ->
  is_prime_location p
  = Ok (includes (toLowerCase loc) "madrid"
        || includes (toLowerCase loc) "barcelona").
Proof.
  intros H. unfold is_prime_location. rewrite H. simpl.
  now destruct (includes (toLowerCase loc) "madrid").
Qed.

Lemma assessRisk_inputs p loc price rent :
  risk_inputs h p loc price rent ->
  exists propertyType,
    get p "propertyType" = Ok propertyType /\
    assessRisk h p =
    let prime := includes (toLowerCase loc) "madrid"
                 || includes (toLowerCase loc) "barcelona" in
    let rentalYield := (rent * 12 / price * 100)%float in
    let score := adjusted_score prime rentalYield in
    Ok (VObject
          [("overall", VString (riskCategory score));
           ("score", VNumber score);
           ("factors", VObject [("location", VString loc);
                                ("propertyType", propertyType);
                                ("rentalYield", VNumber rentalYield)])]).
Proof.
  intros (Hl & (pv & Hp & Hpn) & (rv & Hr & Hrn)).
  destruct (get_defined _ _ _ Hl) as [fields ->]; [discriminate|].
  exists (lookup_field "propertyType" fields). split; [reflexivity|].
  unfold assessRisk.
  rewrite (is_prime_location_string _ _ Hl), Hr. cbn [bind].
  rewrite Hrn, Hp. cbn [bind]. rewrite Hpn, Hl. reflexivity.
Qed.

Lemma adjusted_score_spec prime rentalYield :
  adjusted_score prime rentalYield
  = Z_to_float (risk_score_spec prime rentalYield)
  /\ riskCategory (adjusted_score prime rentalYield)
     = risk_category_spec (risk_score_spec prime rentalYield).
Proof.
  unfold adjusted_score, risk_score_spec.
  destruct prime, (5 <? rentalYield)%float, (rentalYield <? 3)%float;
    split; vm_compute; reflexivity.
Qed.

Lemma adjusted_score_cases prime rentalYield :
  let s := adjusted_score prime rentalYield in
  (s = 60%float /\ riskCategory s = "Medium")
  \/ (s = 70%float /\ riskCategory s = "Low")
  \/ (s = 80%float /\ riskCategory s = "Low")
  \/ (s = 90%float /\ riskCategory s = "Very Low").
Proof.
  unfold adjusted_score.
  destruct prime, (5 <? rentalYield)%float, (rentalYield <? 3)%float;
    vm_compute; tauto.
Qed.

Lemma assessRisk_shape p r :
  assessRisk h p = Ok r ->
  exists prime rentalYield factors,
    r = VObject
          [("overall", VString (riskCategory (adjusted_score prime rentalYield)));
           ("score", VNumber (adjusted_score prime rentalYield));
           ("factors", factors)].
Proof.
  unfold assessRisk; intros H.
  destruct (is_prime_location p) as [prime|]; simpl in H; [|discriminate].
  destruct (get p "estimatedMonthlyRent") as [rv|]; simpl in H; [|discriminate].
  destruct (ToNumber h rv) as [rent|]; simpl in H; [|discriminate].
  destruct (get p "purchasePrice") as [pv|]; simpl in H; [|discriminate].
  destruct (ToNumber h pv) as [price|]; simpl in H; [|discriminate].
  destruct (get p "location") as [l|]; simpl in H; [|discriminate].
  destruct (get p "propertyType") as [t|]; simpl in H; [|discriminate].
  injection H as <-. exists prime, (rent * 12 / price * 100)%float.
  eexists. unfold adjusted_score. destruct prime; reflexivity.
Qed.

(** C6: for every property record the risk score is 70, plus 10 when the
    location contains madrid or barcelona whatever the letter case, plus 10
    when the rental yield (rent x 12 / price x 100) exceeds 5 and minus 10
    when it is below 3; the category is Very Low from 85, Low from 70,
    Medium from 50, High from 30 and Very High below. *)
Theorem assessRisk_score_and_category p loc price rent :
  risk_inputs h p loc price rent ->
  exists (prime : bool) (r : value),
    (prime = true <-> contains_ci loc "madrid" \/ contains_ci loc "barcelona")
    /\ assessRisk h p = Ok r
    /\ get r "score"
       = Ok (VNumber (Z_to_float
                        (risk_score_spec prime (rent * 12 / price * 100)%float)))
    /\ get r "overall"
       = Ok (VString (risk_category_spec
                        (risk_score_spec prime (rent * 12 / price * 100)%float))).
Proof.
  intros Hin. destruct (assessRisk_inputs _ _ _ _ Hin) as (ty & _ & Hrisk).
  exists (includes (toLowerCase loc) "madrid"
          || includes (toLowerCase loc) "barcelona").
  eexists. split; [|split; [exact Hrisk|]].
  - rewrite orb_true_iff, !includes_lower_spec. reflexivity.
  - cbv zeta.
    destruct (adjusted_score_spec
                (includes (toLowerCase loc) "madrid"
                 || includes (toLowerCase loc) "barcelona")
                (rent * 12 / price * 100)%float) as [Hs Hc].
    split; rewrite get_object; simpl lookup_field; congruence.
Qed.

(** C10: the risk score is always one of 60, 70, 80 and 90, so the
    category is Medium, Low or Very Low, never High nor Very High; and the
    assessment of a property record does return. *)
Theorem assessRisk_score_range p :
  (forall r, assessRisk h p = Ok r ->
     exists s c,
       get r "score" = Ok (VNumber s) /\ get r "overall" = Ok (VString c)
       /\ (s = 60 \/ s = 70 \/ s = 80 \/ s = 90)%float
       /\ (c = "Medium" \/ c = "Low" \/ c = "Very Low")
       /\ c <> "High" /\ c <> "Very High")
  /\ (forall loc price rent,
        risk_inputs h p loc price rent -> exists r, assessRisk h p = Ok r).
Proof.
  split.
  - intros r Hr. apply assessRisk_shape in Hr as (prime & ry & f & ->).
    eexists; eexists. split; [reflexivity|]. split; [reflexivity|].
    destruct (adjusted_score_cases prime ry) as [[-> ->]|[[-> ->]|[[-> ->]|[-> ->]]]];
      repeat split; auto; discriminate.
  - intros loc price rent Hin.
    destruct (assessRisk_inputs _ _ _ _ Hin) as (ty & _ & Hrisk). eauto.
Qed.

End RiskProperties.

(** ** Numbers *)

Lemma Prim2SF_zero : Prim2SF 0 = S754_zero false.
Proof. reflexivity. Qed.

Lemma Prim2SF_infinity : Prim2SF infinity = S754_infinity false.
Proof. reflexivity. Qed.

Lemma div_positive_by_zero (price : float) :
  (0 <? price)%float = true -> (price / 0)%float = infinity.
Proof.
  intros H. apply Prim2SF_inj.
  rewrite div_spec, Prim2SF_infinity, Prim2SF_zero.
  rewrite ltb_spec, Prim2SF_zero in H.
  destruct (Prim2SF price) as [s|s| |s m e]; try destruct s;
    try discriminate; reflexivity.
Qed.

(** ** calculateInvestmentMetrics *)

Section MetricsProperties.

Variable h : Host.

Lemma calculateInvestmentMetrics_record p loc price rent area :
  property_record p loc price rent area ->
  exists fields riskAssessment,
    p = VObject fields
    /\ assessRisk h p = Ok riskAssessment
    /\ calculateInvestmentMetrics h p
       = Ok (VObject
               (set_field "riskAssessment" riskAssessment
                  (set_field "financialMetrics"
                     (financialMetrics h (VNumber price) (VNumber rent)
                                       price rent area)
                     fields))).
Proof.
  intros Hrec.
  destruct (assessRisk_inputs h _ _ _ _ (property_record_risk_inputs h _ _ _ _ _ Hrec))
    as (ty & _ & Hrisk).
  destruct Hrec as (Hl & Hp & Hr & Ha).
  destruct (get_defined _ _ _ Hl) as [fields ->]; [discriminate|].
  exists fields. eexists. split; [reflexivity|]. split; [exact Hrisk|].
  unfold calculateInvestmentMetrics.
  rewrite Hp, Hr, Ha, Hl. cbn [bind ToNumber]. rewrite Hrisk. reflexivity.
Qed.

Lemma enriched_financialMetrics fields ra fm :
  get (VObject (set_field "riskAssessment" ra
                  (set_field "financialMetrics" fm fields))) "financialMetrics"
  = Ok fm.
Proof.
  rewrite get_object, lookup_set_field_ne by discriminate.
  now rewrite lookup_set_field_eq.
Qed.

Lemma enriched_riskAssessment fields ra fm :
  get (VObject (set_field "riskAssessment" ra
                  (set_field "financialMetrics" fm fields))) "riskAssessment"
  = Ok ra.
Proof. now rewrite get_object, lookup_set_field_eq. Qed.

Lemma enriched_other fields ra fm k :
  k <> "financialMetrics" -> k <> "riskAssessment" ->
  get (VObject (set_field "riskAssessment" ra
                  (set_field "financialMetrics" fm fields))) k
  = get (VObject fields) k.
Proof.
  intros H1 H2. now rewrite !get_object, !lookup_set_field_ne.
Qed.

(** C1: for a record with positive price and rent the figures are
    annualRentalIncome = rent x 12, propertyTax = 0.005 x price,
    insurance = 0.002 x price, maintenance = 0.01 x price,
    managementFees = 0.08 x annualRentalIncome, netOperatingIncome =
    annualRentalIncome - totalExpenses and capRate = netOperatingIncome /
    price x 100; and for price 450000, rent 1950 and 90 square metres they
    are 23400, 2250, 900, 4500, 1872, total 9522, net 13878, with a cap
    rate of about 3.08 and a rental yield of about 5.2. *)
Theorem calculateInvestmentMetrics_figures :
  (forall p loc price rent area,
     property_record p loc price rent area ->
     (0 <? price)%float = true -> (0 <? rent)%float = true ->
     exists r fm expenses annualRentalIncome totalExpenses netOperatingIncome,
       calculateInvestmentMetrics h p = Ok r
       /\ get r "financialMetrics" = Ok fm
       /\ get fm "expenses" = Ok expenses
       /\ get fm "annualRentalIncome" = Ok (VNumber annualRentalIncome)
       /\ annualRentalIncome = (rent * 12)%float
       /\ get expenses "propertyTax" = Ok (VNumber (price * 0.005))
       /\ get expenses "insurance" = Ok (VNumber (price * 0.002))
       /\ get expenses "maintenance" = Ok (VNumber (price * 0.01))
       /\ get expenses "managementFees"
          = Ok (VNumber (annualRentalIncome * 0.08))
       /\ get fm "totalExpenses" = Ok (VNumber totalExpenses)
       /\ totalExpenses
          = (price * 0.005 + price * 0.002 + price * 0.01
             + annualRentalIncome * 0.08)%float
       /\ get fm "netOperatingIncome" = Ok (VNumber netOperatingIncome)
       /\ netOperatingIncome = (annualRentalIncome - totalExpenses)%float
       /\ get fm "capRate" = Ok (VNumber (netOperatingIncome / price * 100)))
  /\ (exists r fm expenses capRate rentalYield,
        calculateInvestmentMetrics h example_property = Ok r
        /\ get r "financialMetrics" = Ok fm
        /\ get fm "expenses" = Ok expenses
        /\ get fm "annualRentalIncome" = Ok (VNumber 23400)
        /\ get expenses "propertyTax" = Ok (VNumber 2250)
        /\ get expenses "insurance" = Ok (VNumber 900)
        /\ get expenses "maintenance" = Ok (VNumber 4500)
        /\ get expenses "managementFees" = Ok (VNumber 1872)
        /\ get fm "totalExpenses" = Ok (VNumber 9522)
        /\ get fm "netOperatingIncome" = Ok (VNumber 13878)
        /\ get fm "capRate" = Ok (VNumber capRate)
        /\ (abs (capRate - 3.08) <? 0.005)%float = true
        /\ get fm "rentalYield" = Ok (VNumber rentalYield)
        /\ (abs (rentalYield - 5.2) <? 0.05)%float = true).
Proof.
  split.
  - intros p loc price rent area Hrec _ _.
    destruct (calculateInvestmentMetrics_record _ _ _ _ _ Hrec)
      as (fields & ra & -> & _ & Hcalc).
    rewrite Hcalc. do 6 eexists.
    split; [reflexivity|]. split; [apply enriched_financialMetrics|].
    unfold financialMetrics.
    repeat (split; [reflexivity|]).
    reflexivity.
  - destruct (calculateInvestmentMetrics_record example_property
                "Madrid" 450000 1950 90) as (fields & ra & _ & _ & Hcalc).
    { repeat split. }
    rewrite Hcalc. do 5 eexists.
    split; [reflexivity|]. split; [apply enriched_financialMetrics|].
    unfold financialMetrics.
    repeat (split; [vm_compute; reflexivity|]).
    vm_compute; reflexivity.
Qed.

(** C8: the enrichment is a function of the record alone.  Calling it
    again gives the same result; the result carries every field of the
    input unchanged next to the two it adds; and the financial metrics and
    risk assessment depend on nothing but the location, the price, the
    rent, the area and the property type. *)
Theorem calculateInvestmentMetrics_pure p loc price rent area :
  property_record p loc price rent area ->
  exists r fm ra,
    calculateInvestmentMetrics h p = Ok r
    /\ get r "financialMetrics" = Ok fm
    /\ get r "riskAssessment" = Ok ra
    /\ (forall r', calculateInvestmentMetrics h p = Ok r' -> r' = r)
    /\ (forall k, k <> "financialMetrics" -> k <> "riskAssessment" ->
                  get r k = get p k)
    /\ (forall p' ty,
          property_record p' loc price rent area ->
          get p "propertyType" = Ok ty -> get p' "propertyType" = Ok ty ->
          exists r',
            calculateInvestmentMetrics h p' = Ok r'
            /\ get r' "financialMetrics" = Ok fm
            /\ get r' "riskAssessment" = Ok ra).
Proof.
  intros Hrec.
  destruct (calculateInvestmentMetrics_record _ _ _ _ _ Hrec)
    as (fields & ra & -> & Hrisk & Hcalc).
  rewrite Hcalc. do 3 eexists.
  split; [reflexivity|].
  split; [apply enriched_financialMetrics|].
  split; [apply enriched_riskAssessment|].
  split; [congruence|].
  split; [intros k; apply enriched_other|].
  intros p' ty Hrec' Hty Hty'.
  destruct (calculateInvestmentMetrics_record _ _ _ _ _ Hrec')
    as (fields' & ra' & -> & Hrisk' & Hcalc').
  rewrite Hcalc'. eexists. split; [reflexivity|].
  split; [apply enriched_financialMetrics|].
  rewrite enriched_riskAssessment. rewrite <- Hrisk, <- Hrisk'.
  destruct (assessRisk_inputs h _ _ _ _
              (property_record_risk_inputs h _ _ _ _ _ Hrec)) as (t & Ht & ->).
  destruct (assessRisk_inputs h _ _ _ _
              (property_record_risk_inputs h _ _ _ _ _ Hrec')) as (t' & Ht' & ->).
  congruence.
Qed.

(** C4, as the code has it: the metrics engine validates nothing.  For
    every record with a string location and numeric price, rent and area,
    of whatever sign, it returns the enriched record; pricePerSquareMeter
    is the quotient price / area of IEEE arithmetic, which for an area of 0
    and a positive price is +Infinity. *)
Theorem calculateInvestmentMetrics_no_validation p loc price rent area :
  property_record p loc price rent area ->
  exists r fm,
    calculateInvestmentMetrics h p = Ok r
    /\ get r "financialMetrics" = Ok fm
    /\ get fm "pricePerSquareMeter" = Ok (VNumber (price / area))
    /\ (area = 0%float -> (0 <? price)%float = true ->
        (price / area)%float = infinity).
Proof.
  intros Hrec.
  destruct (calculateInvestmentMetrics_record _ _ _ _ _ Hrec)
    as (fields & ra & -> & _ & Hcalc).
  rewrite Hcalc. do 2 eexists.
  split; [reflexivity|]. split; [apply enriched_financialMetrics|].
  split; [reflexivity|].
  intros ->. apply div_positive_by_zero.
Qed.

End MetricsProperties.

(** C4, as the specification words it, fails: a record with 0 square
    metres is enriched without any error, and its pricePerSquareMeter is
    the number +Infinity. *)
Lemma zero_area_is_not_an_error :
  (forall e, calculateInvestmentMetrics sample_host zero_area_property <> Throw e)
  /\ exists r fm,
       calculateInvestmentMetrics sample_host zero_area_property = Ok r
       /\ get r "financialMetrics" = Ok fm
       /\ get fm "pricePerSquareMeter" = Ok (VNumber infinity).
Proof.
  destruct (calculateInvestmentMetrics_record sample_host zero_area_property
              "Madrid" 450000 1950 0) as (fields & ra & _ & _ & Hcalc).
  { repeat split. }
  rewrite Hcalc. split; [discriminate|].
  do 2 eexists. split; [reflexivity|].
  split; [apply enriched_financialMetrics|]. reflexivity.
Qed.


(** ** The parsers *)

(** C9: on a page where no selector matches, each parser succeeds and
    returns the defaults (0 square metres, 0 bedrooms, 0 bathrooms, type
    Apartment, string address and location).  The Idealista record has the
    empty list of features; the Fotocasa and Habitaclia records have no
    features field at all. *)
Theorem parsers_without_selectors page scrapedAt :
  no_selector_matches page ->
  (exists r, parseIdealista page scrapedAt = Ok r /\ default_fields r
             /\ get r "features" = Ok (VArray []))
  /\ (exists r, parseFotocasa page scrapedAt = Ok r /\ default_fields r
                /\ get r "features" = Ok VUndefined)
  /\ (exists r, parseHabitaclia page scrapedAt = Ok r /\ default_fields r
                /\ get r "features" = Ok VUndefined).
Proof.
  intros [Hq Hall].
  unfold parseIdealista, parseFotocasa, parseHabitaclia, detail_number,
    extract_price.
  rewrite !Hq, !Hall. cbn [bind try_catch fotocasa_features List.map List.last].
  repeat split; eexists; (split; [reflexivity|]);
    (split; [|reflexivity]); repeat split; eexists; reflexivity.
Qed.

(** ** scrapeProperty *)

Lemma cache_hit_fresh s key w entry :
  propertyCache w !! key = Some entry ->
  now_at_check s - timestamp entry < CACHE_TTL ->
  cache_hit s key w = Some (data entry).
Proof.
  intros Hk Hfresh. unfold cache_hit. rewrite Hk.
  destruct (Z.ltb_spec (now_at_check s - CACHE_TTL) (timestamp entry)); [done|lia].
Qed.

Lemma cache_hit_miss s key w :
  (forall entry, propertyCache w !! key = Some entry ->
                 CACHE_TTL <= now_at_check s - timestamp entry) ->
  cache_hit s key w = None.
Proof.
  intros Hold. unfold cache_hit.
  destruct (propertyCache w !! key) as [entry|] eqn:Hk; [|done].
  specialize (Hold entry eq_refl).
  destruct (Z.ltb_spec (now_at_check s - CACHE_TTL) (timestamp entry)); [lia|done].
Qed.

Lemma scrapeProperty_miss s url platform w :
  cache_hit s (platform +:+ ":" +:+ url) w = None ->
  exists rest,
    browser_log (scrapeProperty s url platform w).2
    = browser_log w ++ Launch :: rest.
Proof.
  intros Hmiss. unfold scrapeProperty. rewrite Hmiss.
  destruct (launch s); [|exists []; reflexivity].
  destruct (let* page := load s url in dispatch platform page (iso_now s));
    unfold finally_close; destruct (close s); simpl;
    rewrite <- !app_assoc; eexists; reflexivity.
Qed.

Lemma scrapeProperty_success s url platform w d w' :
  cache_hit s (platform +:+ ":" +:+ url) w = None ->
  scrapeProperty s url platform w = (Ok d, w') ->
  w' = log Close
         (cache_set (platform +:+ ":" +:+ url)
            {| timestamp := now_at_store s; data := d |}
            (log (Navigate url) (log Launch w))).
Proof.
  intros Hmiss. unfold scrapeProperty. rewrite Hmiss.
  destruct (launch s); [|discriminate].
  destruct (let* page := load s url in dispatch platform page (iso_now s));
    unfold finally_close; destruct (close s); try discriminate.
  now intros [= -> <-].
Qed.

(** C3: the cache key is [platform:url].  An entry younger than 3,600,000
    ms is returned as it is, with no browser work and without touching the
    cache.  Otherwise the browser is launched, and a scrape that succeeds
    leaves its result under the key with the time of the insertion: a
    second call for the same platform and url within the TTL of that time
    returns the same record and does no browser work, and one after the
    TTL launches the browser again. *)
Theorem scrapeProperty_cache s url platform w :
  let key := platform +:+ ":" +:+ url in
  (forall entry,
     propertyCache w !! key = Some entry ->
     now_at_check s - timestamp entry < CACHE_TTL ->
     scrapeProperty s url platform w = (Ok (data entry), w))
  /\ ((forall entry, propertyCache w !! key = Some entry ->
                     CACHE_TTL <= now_at_check s - timestamp entry) ->
      (exists rest, browser_log (scrapeProperty s url platform w).2
                    = browser_log w ++ Launch :: rest)
      /\ (forall page d,
            launch s = Ok tt -> load s url = Ok page ->
            dispatch platform page (iso_now s) = Ok d -> close s = Ok tt ->
            (scrapeProperty s url platform w).1 = Ok d)
      /\ (forall d w',
            scrapeProperty s url platform w = (Ok d, w') ->
            propertyCache w' !! key
            = Some {| timestamp := now_at_store s; data := d |}
            /\ browser_log w' = browser_log w ++ [Launch; Navigate url; Close]
            /\ (forall s2,
                  now_at_check s2 - now_at_store s < CACHE_TTL ->
                  scrapeProperty s2 url platform w' = (Ok d, w'))
            /\ (forall s2,
                  CACHE_TTL <= now_at_check s2 - now_at_store s ->
                  exists rest,
                    browser_log (scrapeProperty s2 url platform w').2
                    = browser_log w' ++ Launch :: rest))).
Proof.
  intros key. split.
  - intros entry Hk Hfresh. unfold scrapeProperty. fold key.
    now rewrite (cache_hit_fresh _ _ _ _ Hk Hfresh).
  - intros Hold. pose proof (cache_hit_miss _ _ _ Hold) as Hmiss.
    split; [now apply scrapeProperty_miss|]. split.
    + intros page d Hl Hp Hd Hc. unfold scrapeProperty. fold key.
      rewrite Hmiss, Hl, Hp. cbn [bind]. rewrite Hd.
      unfold finally_close. now rewrite Hc.
    + intros d w' Hrun.
      pose proof (scrapeProperty_success _ _ _ _ _ _ Hmiss Hrun) as ->.
      assert (Hstored :
        propertyCache (log Close (cache_set key
            {| timestamp := now_at_store s; data := d |}
            (log (Navigate url) (log Launch w)))) !! key
        = Some {| timestamp := now_at_store s; data := d |}).
      { simpl. apply lookup_insert_eq. }
      split; [exact Hstored|]. split; [simpl; now rewrite <- !app_assoc|].
      split.
      * intros s2 Hfresh. unfold scrapeProperty. fold key.
        now rewrite (cache_hit_fresh _ _ _ _ Hstored Hfresh).
      * intros s2 Hstale. apply scrapeProperty_miss. fold key.
        apply cache_hit_miss. intros entry. rewrite Hstored.
        now intros [= <-].
Qed.

Lemma dispatch_unsupported platform page scrapedAt :
  supported platform = false ->
  dispatch platform page scrapedAt
  = Throw (Error ("Unsupported platform: " +:+ platform)).
Proof.
  unfold supported, dispatch. intros H.
  apply orb_false_elim in H as [H H3]. apply orb_false_elim in H as [H1 H2].
  now rewrite H1, H2, H3.
Qed.

(** C5, as the code has it: for a platform tag outside idealista,
    fotocasa and habitaclia (letter case apart) a call that misses the
    cache never returns a record and leaves the cache as it was, but the
    browser is launched first; when the launch, the page load and the
    close succeed, the error is Unsupported platform followed by the tag,
    raised after the navigation and before the session is closed. *)
Theorem scrapeProperty_unsupported s url platform w :
  supported platform = false ->
  cache_hit s (platform +:+ ":" +:+ url) w = None ->
  exists e w',
    scrapeProperty s url platform w = (Throw e, w')
    /\ propertyCache w' = propertyCache w
    /\ (exists rest, browser_log w' = browser_log w ++ Launch :: rest)
    /\ (forall page,
          launch s = Ok tt -> load s url = Ok page -> close s = Ok tt ->
          e = Error ("Unsupported platform: " +:+ platform)
          /\ browser_log w' = browser_log w ++ [Launch; Navigate url; Close]).
Proof.
  intros Hun Hmiss. unfold scrapeProperty. rewrite Hmiss.
  destruct (launch s) as [[]|e0].
  2:{ do 2 eexists. split; [reflexivity|]. split; [reflexivity|].
      split; [exists []; reflexivity|]. discriminate. }
  assert (Hbody : exists e1,
    (let* page := load s url in dispatch platform page (iso_now s)) = Throw e1
    /\ forall page, load s url = Ok page ->
                    e1 = Error ("Unsupported platform: " +:+ platform)).
  { destruct (load s url) as [page|e1]; cbn [bind].
    - rewrite dispatch_unsupported by assumption. eexists. split; [reflexivity|].
      reflexivity.
    - eexists. split; [reflexivity|]. discriminate. }
  destruct Hbody as (e1 & -> & He1). unfold finally_close.
  destruct (close s) as [[]|e2]; do 2 eexists;
    (split; [reflexivity|]); (split; [reflexivity|]);
    (split; [simpl; rewrite <- !app_assoc; eexists; reflexivity|]).
  - intros page _ Hp _. split; [now apply (He1 page)|].
    simpl. now rewrite <- !app_assoc.
  - discriminate.
Qed.

(** C5, as the specification words it, fails: for the tag zoopla the
    error is raised, but only after the browser has been launched and has
    navigated to the url. *)
Lemma zoopla_opens_a_browser :
  scrapeProperty (sample_session 1714557600000)
    "https://www.zoopla.co.uk/for-sale/details/1" "zoopla" empty_world
  = (Throw (Error "Unsupported platform: zoopla"),
     {| propertyCache := ∅;
        browser_log := [Launch;
                        Navigate "https://www.zoopla.co.uk/for-sale/details/1";
                        Close] |}).
Proof. reflexivity. Qed.

(** ** Order and rounding of binary64 numbers *)

Lemma digits2_pos_size m : digits2_pos m = Pos.size m.
Proof. induction m; simpl; congruence. Qed.

Lemma digits2_pos_bounds m :
  2 ^ (Z.pos (digits2_pos m) - 1) <= Z.pos m < 2 ^ Z.pos (digits2_pos m).
Proof.
  rewrite digits2_pos_size. split.
  - pose proof (Pos.size_le m) as H.
    apply Pos2Z.pos_le_pos in H. rewrite Pos2Z.inj_pow in H.
    replace (Z.pos (Pos.size m)) with (Z.succ (Z.pos (Pos.size m) - 1)) in H by lia.
    rewrite Z.pow_succ_r in H by lia. lia.
  - pose proof (Pos.size_gt m) as H.
    apply Pos2Z.pos_lt_pos in H. now rewrite Pos2Z.inj_pow in H.
Qed.

Lemma valid_finite_bounds s m e :
  valid_binary (S754_finite s m e) = true ->
  -1074 <= e <= 971 /\ Z.pos m < 2 ^ 53 /\ (-1074 < e -> 2 ^ 52 <= Z.pos m).
Proof.
  unfold SpecFloat.valid_binary, bounded, canonical_mantissa, fexp, SpecFloat.emin.
  rewrite andb_true_iff, Z.eqb_eq, Z.leb_le. unfold prec, emax.
  intros [Hc He]. pose proof (digits2_pos_bounds m) as [Hlo Hhi].
  assert (Hd : Z.pos (digits2_pos m) <= 53) by lia.
  split; [lia|]. split.
  - eapply Z.lt_le_trans; [exact Hhi|]. apply Z.pow_le_mono_r; lia.
  - intros Hnorm. replace (Z.pos (digits2_pos m)) with 53 in Hlo by lia.
    exact Hlo.
Qed.

Lemma pow2_pos n : 0 <= n -> 0 < 2 ^ n.
Proof. intros. apply Z.pow_pos_nonneg; lia. Qed.

Lemma scaled_shift m e k :
  0 <= k -> -1074 <= e -> scaled (m * 2 ^ k) e = scaled m (e + k).
Proof.
  intros Hk He. unfold scaled.
  replace (e + k + 1074) with (k + (e + 1074)) by lia.
  rewrite (Z.pow_add_r 2 k (e + 1074)) by lia. ring.
Qed.

Lemma scaled_le_mono m n e : -1074 <= e -> m <= n -> scaled m e <= scaled n e.
Proof.
  intros He H. unfold scaled. apply Z.mul_le_mono_nonneg_r; [|exact H].
  apply Z.lt_le_incl, pow2_pos. lia.
Qed.

Lemma scaled_lt_exponent m1 e1 m2 e2 :
  -1074 <= e1 < e2 -> 0 < m1 < 2 ^ 53 -> 2 ^ 52 <= m2 ->
  scaled m1 e1 < scaled m2 e2.
Proof.
  intros He Hm1 Hm2. unfold scaled.
  replace (e2 + 1074) with ((e2 - e1 - 1) + 1 + (e1 + 1074)) by lia.
  rewrite (Z.pow_add_r 2 (e2 - e1 - 1 + 1)), (Z.pow_add_r 2 (e2 - e1 - 1)) by lia.
  pose proof (pow2_pos (e1 + 1074) ltac:(lia)) as Hp.
  pose proof (pow2_pos (e2 - e1 - 1) ltac:(lia)) as Hq.
  change (2 ^ 1) with 2.
  assert (m1 < m2 * (2 ^ (e2 - e1 - 1) * 2)).
  { change (2 ^ 53) with (2 ^ 52 * 2) in Hm1. nia. }
  nia.
Qed.

(** Comparing valid positive numbers compares their values. *)
Lemma SFcompare_positive m1 e1 m2 e2 :
  valid_binary (S754_finite false m1 e1) = true ->
  valid_binary (S754_finite false m2 e2) = true ->
  SFcompare (S754_finite false m1 e1) (S754_finite false m2 e2)
  = Some (scaled (Z.pos m1) e1 ?= scaled (Z.pos m2) e2).
Proof.
  intros H1 H2.
  apply valid_finite_bounds in H1 as (He1 & Hm1 & Hn1).
  apply valid_finite_bounds in H2 as (He2 & Hm2 & Hn2).
  cbn [SFcompare]. f_equal. destruct (Z.compare_spec e1 e2) as [->|Hlt|Hgt].
  - rewrite Pos.compare_cont_spec. unfold scaled.
    rewrite <- Zmult_compare_compat_r by (apply Z.lt_gt, pow2_pos; lia).
    change (Z.pos m1 ?= Z.pos m2) with (m1 ?= m2)%positive.
    now destruct (m1 ?= m2)%positive.
  - symmetry. apply Z.compare_lt_iff.
    apply scaled_lt_exponent; lia.
  - symmetry. apply Z.compare_gt_iff.
    apply scaled_lt_exponent; lia.
Qed.

(** What a comparison with a positive constant says about values. *)
Lemma SFltb_below x mc ec :
  valid_binary x = true -> valid_binary (S754_finite false mc ec) = true ->
  SFltb x (S754_finite false mc ec) = true ->
  SFle x (scaled (Z.pos mc) ec).
Proof.
  intros Hx Hc. unfold SFltb.
  assert (Hpos : 0 <= scaled (Z.pos mc) ec).
  { unfold scaled. apply Z.mul_nonneg_nonneg; [lia|]. apply Z.pow_nonneg; lia. }
  destruct x as [s|s| |s m e]; cbn [SFle].
  - intros _. exact Hpos.
  - destruct s; [reflexivity | discriminate].
  - discriminate.
  - destruct s.
    + intros _. unfold scaled at 1. cbn [cond_Zopp].
      assert (0 <= 2 ^ (e + 1074)) by (apply Z.pow_nonneg; lia). nia.
    + rewrite SFcompare_positive by assumption. cbn [cond_Zopp].
      destruct (Z.compare_spec (scaled (Z.pos m) e) (scaled (Z.pos mc) ec));
        try discriminate. lia.
Qed.

Lemma SFltb_above x mc ec :
  valid_binary x = true -> valid_binary (S754_finite false mc ec) = true ->
  SFle x (scaled (Z.pos mc) ec) ->
  SFltb (S754_finite false mc ec) x = false.
Proof.
  intros Hx Hc. unfold SFltb.
  destruct x as [s|s| |s m e]; cbn [SFle].
  - reflexivity.
  - now intros ->.
  - contradiction.
  - destruct s; [reflexivity|].
    rewrite SFcompare_positive by assumption. cbn [cond_Zopp].
    destruct (Z.compare_spec (scaled (Z.pos mc) ec) (scaled (Z.pos m) e));
      try reflexivity. lia.
Qed.

(** One step of the shift that precedes rounding halves the mantissa, and
    loses nothing when the mantissa was even and nothing was lost before. *)
Lemma shr_1_floor mrs :
  0 <= shr_m mrs -> shr_m (shr_1 mrs) = shr_m mrs / 2.
Proof.
  destruct mrs as [m r s]. cbn [shr_m]. intros Hm.
  rewrite <- Z.div2_div.
  destruct m as [|[p|p|]|p]; try reflexivity. lia.
Qed.

Lemma shr_1_exact mrs :
  0 <= shr_m mrs -> shr_m mrs mod 2 = 0 ->
  shr_r mrs = false -> shr_s mrs = false ->
  shr_r (shr_1 mrs) = false /\ shr_s (shr_1 mrs) = false.
Proof.
  destruct mrs as [m r s]. cbn [shr_m shr_r shr_s]. intros Hm Heven -> ->.
  destruct m as [|[p|p|]|p]; try (split; reflexivity); try lia.
  - rewrite Pos2Z.inj_xI in Heven.
    rewrite Z.add_comm, Z.mul_comm, Z.mod_add in Heven by lia. discriminate.
  - discriminate.
Qed.

Lemma shr_1_invariant N n mrs :
  0 <= N -> 0 <= n ->
  shr_m mrs = N / 2 ^ n ->
  (N mod 2 ^ n = 0 -> shr_r mrs = false /\ shr_s mrs = false) ->
  shr_m (shr_1 mrs) = N / 2 ^ (n + 1)
  /\ (N mod 2 ^ (n + 1) = 0 ->
      shr_r (shr_1 mrs) = false /\ shr_s (shr_1 mrs) = false).
Proof.
  intros HN Hn Hm Hexact. pose proof (pow2_pos n Hn) as Hp.
  assert (Hm0 : 0 <= shr_m mrs) by (rewrite Hm; apply Z.div_pos; lia).
  rewrite Z.pow_add_r by lia. change (2 ^ 1) with 2. split.
  - rewrite shr_1_floor, Hm by assumption. apply Z.div_div; lia.
  - intros Hmod. apply Z.mod_divide in Hmod; [|lia]. destruct Hmod as [q Hq].
    assert (HNq : N = (q * 2) * 2 ^ n) by lia.
    assert (Hdiv : N / 2 ^ n = q * 2) by (rewrite HNq; apply Z.div_mul; lia).
    destruct Hexact as [Hr Hs].
    { rewrite HNq. apply Z.mod_mul. lia. }
    apply shr_1_exact; try assumption.
    rewrite Hm, Hdiv. apply Z.mod_mul. lia.
Qed.

Lemma iter_shr_1_invariant p : forall N n mrs,
  0 <= N -> 0 <= n ->
  shr_m mrs = N / 2 ^ n ->
  (N mod 2 ^ n = 0 -> shr_r mrs = false /\ shr_s mrs = false) ->
  shr_m (SpecFloat.iter_pos shr_1 p mrs) = N / 2 ^ (n + Z.pos p)
  /\ (N mod 2 ^ (n + Z.pos p) = 0 ->
      shr_r (SpecFloat.iter_pos shr_1 p mrs) = false
      /\ shr_s (SpecFloat.iter_pos shr_1 p mrs) = false).
Proof.
  induction p as [p IH|p IH|]; intros N n mrs HN Hn Hm Hexact; cbn [SpecFloat.iter_pos].
  - destruct (shr_1_invariant N n mrs HN Hn Hm Hexact) as [H1 H1'].
    destruct (IH N (n + 1) _ HN ltac:(lia) H1 H1') as [H2 H2'].
    destruct (IH N (n + 1 + Z.pos p) _ HN ltac:(lia) H2 H2') as [H3 H3'].
    replace (n + Z.pos p~1) with (n + 1 + Z.pos p + Z.pos p) by lia. auto.
  - destruct (IH N n _ HN Hn Hm Hexact) as [H2 H2'].
    destruct (IH N (n + Z.pos p) _ HN ltac:(lia) H2 H2') as [H3 H3'].
    replace (n + Z.pos p~0) with (n + Z.pos p + Z.pos p) by lia. auto.
  - apply shr_1_invariant; assumption.
Qed.

(** The shift to the working exponent: the exponent does not decrease, the
    mantissa is divided by the power of two in between, rounded down, and
    the location is exact when the division is. *)
Lemma shr_fexp_floor m e :
  0 <= m -> -1074 <= e ->
  exists mrs e',
    shr_fexp prec emax m e loc_Exact = (mrs, e')
    /\ e <= e' /\ shr_m mrs = m / 2 ^ (e' - e)
    /\ (m mod 2 ^ (e' - e) = 0 -> loc_of_shr_record mrs = loc_Exact)
    /\ (e < e' -> e' = Zdigits2 m + e - 53).
Proof.
  intros Hm He. unfold shr_fexp, shr, fexp, SpecFloat.emin, shr_record_of_loc.
  unfold prec, emax.
  destruct (Z.max (Zdigits2 m + e - 53) (3 - 1024 - 53) - e) as [|p|p] eqn:Hn.
  1,3: do 2 eexists; split; [reflexivity|];
       rewrite Z.sub_diag, Z.div_1_r; repeat split; try reflexivity; lia.
  do 2 eexists. split; [reflexivity|].
  destruct (iter_shr_1_invariant p m 0 (Build_shr_record m false false))
    as [Hfloor Hexact]; try lia.
  { cbn [shr_m]. now rewrite Z.div_1_r. }
  { auto. }
  replace (e + Z.pos p - e) with (0 + Z.pos p) by lia.
  split; [lia|]. split; [exact Hfloor|]. split; [|lia].
  intros Hmod. destruct (Hexact Hmod) as [Hr Hs].
  destruct (SpecFloat.iter_pos shr_1 p _) as [m' r s]. cbn [shr_r shr_s] in *.
  now subst.
Qed.

Lemma round_nearest_even_bounds m l :
  m <= round_nearest_even m l <= m + 1.
Proof.
  destruct l as [|[]]; cbn [round_nearest_even]; try lia.
  destruct (Z.even m); lia.
Qed.

Lemma scaled_nonneg m e : 0 <= m -> 0 <= scaled m e.
Proof.
  intros. unfold scaled. apply Z.mul_nonneg_nonneg; [lia|].
  apply Z.pow_nonneg; lia.
Qed.

Lemma scaled_nonpos p e : scaled (Z.neg p) e <= 0.
Proof.
  unfold scaled. assert (0 <= 2 ^ (e + 1074)) by (apply Z.pow_nonneg; lia). nia.
Qed.

Lemma scaled_integer_small c : 0 <= c < 2 ^ 53 -> scaled c 0 < 2 ^ (53 + 1074).
Proof.
  intros Hc. unfold scaled. rewrite (Z.pow_add_r 2 53 1074) by lia.
  apply Z.mul_lt_mono_pos_r; [apply pow2_pos|]; lia.
Qed.

Lemma scaled_large m e k :
  0 <= k -> -1074 <= e -> 2 ^ k <= m -> 2 ^ (k + e + 1074) <= scaled m e.
Proof.
  intros Hk He Hm. unfold scaled.
  replace (k + e + 1074) with (k + (e + 1074)) by lia.
  rewrite (Z.pow_add_r 2 k (e + 1074)) by lia.
  apply Z.mul_le_mono_nonneg_r; [|exact Hm].
  apply Z.lt_le_incl, pow2_pos. lia.
Qed.

(** Rounding to nearest never carries a number across an integer below
    2^53 that bounds it from above: the first shift comes with the bound
    as a whole number of units of the new exponent. *)
Lemma round_below_integer m e c :
  0 < m -> -1074 <= e -> 0 <= c < 2 ^ 53 -> scaled m e <= scaled c 0 ->
  forall mrs e',
    shr_fexp prec emax m e loc_Exact = (mrs, e') ->
    scaled (round_nearest_even (shr_m mrs) (loc_of_shr_record mrs)) e'
    <= scaled c 0.
Proof.
  intros Hm He Hc Hle mrs e' Hshr.
  destruct (shr_fexp_floor m e) as (mrs1 & e1 & Heq & He1 & Hm1 & Hx1 & Hd1);
    [lia|lia|].
  rewrite Hshr in Heq. injection Heq as <- <-.
  destruct (Z.eq_dec e' e) as [->|Hne].
  - rewrite Z.sub_diag in Hm1, Hx1. change (2 ^ 0) with 1 in Hm1, Hx1.
    rewrite Z.div_1_r in Hm1. rewrite Hx1 by apply Z.mod_1_r.
    cbn [round_nearest_even]. now rewrite Hm1.
  - specialize (Hd1 ltac:(lia)).
    destruct m as [|p|p]; try lia. cbn [Zdigits2] in Hd1.
    pose proof (digits2_pos_bounds p) as [Hlo _].
    assert (He'0 : e' <= 0).
    { destruct (Z.le_gt_cases e' 0) as [|Hpos]; [assumption|exfalso].
      pose proof (scaled_large (Z.pos p) e (Z.pos (digits2_pos p) - 1)
                    ltac:(lia) He Hlo) as Hbig.
      pose proof (scaled_integer_small c Hc) as Hsmall.
      assert (2 ^ (53 + 1074) <= 2 ^ (Z.pos (digits2_pos p) - 1 + e + 1074))
        by (apply Z.pow_le_mono_r; lia).
      lia. }
    set (D := 2 ^ (e' - e)) in *. set (P := 2 ^ (e + 1074)).
    set (K := c * 2 ^ (- e')).
    assert (HD : 0 < D) by (apply pow2_pos; lia).
    assert (HP : 0 < P) by (apply pow2_pos; lia).
    assert (Hunits : scaled c 0 = K * D * P).
    { unfold scaled, K, D, P. rewrite <- !Z.mul_assoc. f_equal.
      rewrite <- !Z.pow_add_r by lia. f_equal. lia. }
    assert (HmK : Z.pos p <= K * D).
    { unfold scaled in Hle at 1. fold P in Hle. rewrite Hunits in Hle. nia. }
    pose proof (Z.mul_div_le (Z.pos p) D HD) as Hdown.
    pose proof (Z.mod_pos_bound (Z.pos p) D HD) as Hmod.
    pose proof (Z.div_mod (Z.pos p) D ltac:(lia)) as Hdm.
    assert (Hround :
      round_nearest_even (shr_m mrs) (loc_of_shr_record mrs) <= K).
    { pose proof (round_nearest_even_bounds (shr_m mrs) (loc_of_shr_record mrs)).
      destruct (Z.lt_ge_cases (shr_m mrs) K) as [|Hge]; [lia|].
      assert (Hexact : Z.pos p mod D = 0) by nia.
      rewrite (Hx1 Hexact). cbn [round_nearest_even]. rewrite Hm1. nia. }
    rewrite Hunits. unfold scaled.
    replace (2 ^ (e' + 1074)) with (D * P).
    2:{ unfold D, P. rewrite <- Z.pow_add_r by lia. f_equal. lia. }
    rewrite <- Z.mul_assoc. apply Z.mul_le_mono_nonneg_r; [|exact Hround].
    apply Z.mul_nonneg_nonneg; lia.
Qed.

(** Rounding a positive mantissa gives a number of the requested sign;
    with a positive sign it stays at or below any integer under 2^53 that
    the exact value does not exceed. *)
Lemma binary_round_aux_le sx m e c :
  0 < m -> -1074 <= e -> 0 <= c < 2 ^ 53 ->
  (sx = false -> scaled m e <= scaled c 0) ->
  SFle (binary_round_aux prec emax sx m e loc_Exact) (scaled c 0).
Proof.
  intros Hm He Hc Hle. unfold binary_round_aux.
  destruct (shr_fexp_floor m e) as (mrs1 & e1 & Heq1 & He1 & Hm1 & _ & _);
    [lia|lia|].
  rewrite Heq1.
  set (m1 := round_nearest_even (shr_m mrs1) (loc_of_shr_record mrs1)).
  assert (Hm1pos : 0 <= shr_m mrs1).
  { rewrite Hm1. apply Z.div_pos; [lia|]. apply pow2_pos. lia. }
  pose proof (round_nearest_even_bounds (shr_m mrs1) (loc_of_shr_record mrs1))
    as Hr. fold m1 in Hr.
  destruct (shr_fexp_floor m1 e1) as (mrs2 & e2 & Heq2 & He2 & Hm2 & _ & _);
    [lia|lia|].
  rewrite Heq2.
  assert (HD : 0 < 2 ^ (e2 - e1)) by (apply pow2_pos; lia).
  assert (Hm2pos : 0 <= shr_m mrs2).
  { rewrite Hm2. apply Z.div_pos; lia. }
  assert (Hdown : scaled (shr_m mrs2) e2 <= scaled m1 e1).
  { rewrite Hm2. unfold scaled.
    replace (e2 + 1074) with ((e2 - e1) + (e1 + 1074)) by lia.
    rewrite (Z.pow_add_r 2 (e2 - e1) (e1 + 1074)) by lia.
    pose proof (Z.mul_div_le m1 _ HD).
    pose proof (pow2_pos (e1 + 1074) ltac:(lia)). nia. }
  assert (Hc0 : 0 <= scaled c 0) by (apply scaled_nonneg; lia).
  destruct (shr_m mrs2) as [|p|p]; [exact Hc0| |lia].
  destruct sx.
  - destruct (e2 <=? emax - prec); cbn [SFle cond_Zopp]; [|reflexivity].
    pose proof (scaled_nonpos p e2) as Hneg.
    change (Z.neg p) with (- Z.pos p) in Hneg. lia.
  - specialize (Hle eq_refl).
    pose proof (round_below_integer m e c Hm He Hc Hle _ _ Heq1) as Hbound.
    fold m1 in Hbound.
    destruct (Z.leb_spec e2 (emax - prec)) as [|Hover];
      cbn [SFle cond_Zopp]; [lia|exfalso].
    unfold emax, prec in Hover.
    pose proof (scaled_large (Z.pos p) e2 0 ltac:(lia) ltac:(lia) ltac:(lia)).
    pose proof (scaled_integer_small c Hc).
    assert (2 ^ (53 + 1074) <= 2 ^ (0 + e2 + 1074))
      by (apply Z.pow_le_mono_r; lia).
    lia.
Qed.

Lemma shl_align_scaled mx ex ex' :
  -1074 <= ex -> -1074 <= ex' ->
  exists mz ez,
    shl_align mx ex ex' = (mz, ez)
    /\ -1074 <= ez /\ scaled (Z.pos mz) ez = scaled (Z.pos mx) ex
    /\ (ex' <= ex -> ez = ex').
Proof.
  intros Hex Hex'. unfold shl_align.
  destruct (ex' - ex) as [|d|d] eqn:Hd.
  1,2: do 2 eexists; split; [reflexivity|]; repeat split; lia.
  do 2 eexists. split; [reflexivity|]. split; [lia|]. split; [|reflexivity].
  fold (shift_pos d mx). rewrite shift_pos_correct.
  change (Zpower_pos 2 d) with (2 ^ Z.pos d).
  rewrite Z.mul_comm, scaled_shift by lia. f_equal. lia.
Qed.

Lemma binary_normalize_le m e c :
  -1074 <= e -> 0 <= c < 2 ^ 53 -> scaled m e <= scaled c 0 ->
  SFle (binary_normalize prec emax m e false) (scaled c 0).
Proof.
  intros He Hc Hle. unfold binary_normalize, binary_round.
  destruct m as [|p|p].
  - apply scaled_nonneg. lia.
  - destruct (shl_align_scaled p e (fexp prec emax (Z.pos (digits2_pos p) + e)))
      as (mz & ez & -> & Hez & Hval & _); [lia|unfold fexp, SpecFloat.emin, prec, emax; lia|].
    apply binary_round_aux_le; lia.
  - destruct (shl_align_scaled p e (fexp prec emax (Z.pos (digits2_pos p) + e)))
      as (mz & ez & -> & Hez & Hval & _); [lia|unfold fexp, SpecFloat.emin, prec, emax; lia|].
    apply binary_round_aux_le; first [lia | discriminate].
Qed.

Lemma scaled_add m n e : scaled (m + n) e = scaled m e + scaled n e.
Proof. unfold scaled. ring. Qed.

Lemma scaled_cond_Zopp s m e :
  scaled (cond_Zopp s m) e = cond_Zopp s (scaled m e).
Proof. destruct s; unfold scaled; cbn [cond_Zopp]; ring. Qed.

(** The sum of two numbers bounded by integers is bounded by the sum of
    the integers, as long as that sum is an integer below 2^53. *)
Lemma SFadd_le x y a b :
  valid_binary x = true -> valid_binary y = true ->
  SFle x (scaled a 0) -> SFle y (scaled b 0) -> 0 <= a + b < 2 ^ 53 ->
  SFle (SF64add x y) (scaled (a + b) 0).
Proof.
  intros Hvx Hvy Hx Hy Hab. rewrite scaled_add.
  assert (Hsum : 0 <= scaled a 0 + scaled b 0).
  { rewrite <- scaled_add. apply scaled_nonneg. lia. }
  destruct x as [sx|sx| |sx mx ex]; destruct y as [sy|sy| |sy my ey];
    cbn [SFle] in Hx, Hy; try contradiction; subst;
    try (cbn [SF64add SFadd SFle]; first [reflexivity | lia]).
  - destruct sx, sy; cbn [SF64add SFadd SFle]; lia.
  - apply valid_finite_bounds in Hvx as (Hex & _).
    apply valid_finite_bounds in Hvy as (Hey & _).
    unfold SF64add, SFadd.
    destruct (shl_align_scaled mx ex (Z.min ex ey)) as (zx & e1 & -> & _ & Hzx & He1);
      [lia|lia|].
    destruct (shl_align_scaled my ey (Z.min ex ey)) as (zy & e2 & -> & _ & Hzy & He2);
      [lia|lia|].
    specialize (He1 ltac:(lia)). specialize (He2 ltac:(lia)). subst e1 e2.
    cbn [fst]. rewrite <- scaled_add.
    apply binary_normalize_le; [lia|lia|].
    rewrite !scaled_add, !scaled_cond_Zopp, Hzx, Hzy, <- !scaled_cond_Zopp.
    lia.
Qed.

Lemma at_most_add x y a b :
  at_most x a -> at_most y b -> 0 <= a + b < 2 ^ 53 ->
  at_most (x + y)%float (a + b).
Proof.
  unfold at_most. intros Hx Hy Hab. rewrite add_spec.
  apply SFadd_le; auto using Prim2SF_valid.
Qed.

Lemma nan_or_at_most_add x y a b :
  nan_or_at_most x a -> nan_or_at_most y b -> 0 <= a + b < 2 ^ 53 ->
  nan_or_at_most (x + y)%float (a + b).
Proof.
  unfold nan_or_at_most. intros [Hx|Hx] [Hy|Hy] Hab;
    try (left; rewrite add_spec; first [rewrite Hx | rewrite Hy];
         now destruct (Prim2SF x), (Prim2SF y)).
  right. now apply at_most_add.
Qed.

(** [Math.min] with a positive constant is NaN or at most the constant. *)
Lemma Math_min_at_most a c k mc ec :
  Prim2SF c = S754_finite false mc ec ->
  scaled (Z.pos mc) ec = scaled k 0 ->
  nan_or_at_most (Math_min a c) k.
Proof.
  intros Hc Hk. unfold Math_min, nan_or_at_most, at_most.
  assert (Hcc : SFle (Prim2SF c) (scaled k 0)).
  { rewrite Hc. cbn [SFle cond_Zopp]. lia. }
  assert (Hvc : valid_binary (S754_finite false mc ec) = true).
  { rewrite <- Hc. apply Prim2SF_valid. }
  destruct (is_nan a || is_nan c); [left; reflexivity|right].
  destruct (a <? c)%float eqn:Hlt.
  { rewrite <- Hk. apply SFltb_below; auto using Prim2SF_valid.
    now rewrite <- Hc, <- ltb_spec. }
  destruct (c <? a)%float; [exact Hcc|].
  destruct (is_neg_zero a) eqn:Hz; [|exact Hcc].
  unfold is_neg_zero in Hz. rewrite classify_spec in Hz.
  unfold SF64classify, SFclassify in Hz.
  destruct (Prim2SF a) as [[]|[]| |[] m e]; try discriminate.
  - cbn [SFle]. rewrite <- Hk. apply scaled_nonneg. lia.
  - destruct (Z.pos (digits2_pos m) =? prec); discriminate.
  - destruct (Z.pos (digits2_pos m) =? prec); discriminate.
Qed.

Lemma SFopp_binary_normalize p e :
  SFopp (binary_normalize prec emax (Z.pos p) e false)
  = binary_normalize prec emax (Z.neg p) e false.
Proof.
  unfold binary_normalize, binary_round, binary_round_aux.
  destruct (shl_align p e _) as [mz ez].
  destruct (shr_fexp prec emax (Z.pos mz) ez loc_Exact) as [mrs1 e1].
  destruct (shr_fexp prec emax _ e1 loc_Exact) as [mrs2 e2].
  destruct (shr_m mrs2); try reflexivity.
  destruct (e2 <=? emax - prec); reflexivity.
Qed.

Lemma Z_to_float_at_most r c :
  - 2 ^ 53 <= r <= c -> 0 <= c < 2 ^ 53 -> at_most (Z_to_float r) c.
Proof.
  intros Hr Hc. unfold at_most, Z_to_float.
  assert (Habs : Z.abs r < 2 ^ 62) by lia.
  destruct (Z.ltb_spec (Z.abs r) (2 ^ 62)) as [_|]; [|lia].
  assert (Hspec : Prim2SF (of_uint63 (Uint63.of_Z (Z.abs r)))
                  = binary_normalize prec emax (Z.abs r) 0 false).
  { rewrite of_uint63_spec. fold Uint63.to_Z. rewrite Uint63.of_Z_spec.
    rewrite Z.mod_small; [reflexivity|]. change Uint63.wB with (2 ^ 63). lia. }
  destruct (Z.ltb_spec r 0) as [Hneg|Hpos].
  - rewrite opp_spec, Hspec.
    destruct r as [|p|p]; try lia. change (Z.abs (Z.neg p)) with (Z.pos p).
    rewrite SFopp_binary_normalize. apply binary_normalize_le; try lia.
    pose proof (scaled_nonpos p 0). pose proof (scaled_nonneg c 0). lia.
  - rewrite Hspec, Z.abs_eq by lia.
    apply binary_normalize_le; try lia. apply scaled_le_mono; lia.
Qed.

(** Rounding to the nearest integer keeps a number at or below an integer
    bound. *)
Lemma Math_round_at_most w c :
  0 <= c < 2 ^ 53 -> at_most w c -> at_most (Math_round w) c.
Proof.
  intros Hc Hw. unfold Math_round. unfold at_most in Hw.
  pose proof (Prim2SF_valid w) as Hv.
  destruct (Prim2SF w) as [s|s| |s m e] eqn:Hsf; try (unfold at_most; now rewrite Hsf).
  destruct (Z.leb_spec 0 e) as [|He]; [unfold at_most; now rewrite Hsf|].
  apply valid_finite_bounds in Hv as (Hev & Hm & _).
  cbn [SFle] in Hw.
  set (n := if s then Z.neg m else Z.pos m).
  assert (Hn : cond_Zopp s (Z.pos m) = n) by (destruct s; reflexivity).
  rewrite Hn in Hw.
  set (d := 2 ^ (- e)).
  assert (Hd : 2 <= d).
  { unfold d. change 2 with (2 ^ 1) at 1. apply Z.pow_le_mono_r; lia. }
  assert (Hnd : n <= c * d).
  { unfold scaled in Hw. replace (0 + 1074) with (- e + (e + 1074)) in Hw by lia.
    rewrite (Z.pow_add_r 2 (- e) (e + 1074)) in Hw by lia. fold d in Hw.
    pose proof (pow2_pos (e + 1074) ltac:(lia)). nia. }
  assert (Hnlo : - 2 ^ 53 < n) by (destruct s; unfold n; lia).
  pose proof (Z.mul_div_le (2 * n + d) (2 * d) ltac:(lia)) as Hfloor.
  pose proof (Z.mod_pos_bound (2 * n + d) (2 * d) ltac:(lia)) as Hmod.
  pose proof (Z.div_mod (2 * n + d) (2 * d) ltac:(lia)) as Hdm.
  set (r := (2 * n + d) / (2 * d)) in *.
  assert (Hr : - 2 ^ 53 <= r <= c) by nia.
  destruct (Z.eqb_spec r 0) as [_|_].
  - destruct s; unfold at_most; cbn [SFle]; apply scaled_nonneg; lia.
  - now apply Z_to_float_at_most.
Qed.

Lemma Math_round_nan w : Prim2SF w = S754_nan -> Math_round w = w.
Proof. intros H. unfold Math_round. now rewrite H. Qed.

Lemma not_above x k c mc ec :
  Prim2SF k = S754_finite false mc ec ->
  scaled (Z.pos mc) ec = scaled c 0 ->
  nan_or_at_most x c -> (k <? x)%float = false.
Proof.
  intros Hk Hc [Hnan|Hle]; rewrite ltb_spec, Hk.
  - now rewrite Hnan.
  - apply SFltb_above; auto using Prim2SF_valid.
    + rewrite <- Hk. apply Prim2SF_valid.
    + now rewrite Hc.
Qed.

Ltac by_evaluation := vm_compute; reflexivity.

(** The heuristic score never exceeds 100. *)
Lemma heuristic_score_bound rentalYield score squareMeters :
  (100 <? Math_round (rentalYieldScore rentalYield + riskScore score
                      + locationScore squareMeters))%float = false.
Proof.
  assert (H1 : nan_or_at_most (rentalYieldScore rentalYield) 50).
  { eapply Math_min_at_most; by_evaluation. }
  assert (H2 : nan_or_at_most (riskScore score) 30).
  { eapply Math_min_at_most; by_evaluation. }
  assert (H3 : nan_or_at_most (locationScore squareMeters) 20).
  { eapply Math_min_at_most; by_evaluation. }
  pose proof (nan_or_at_most_add _ _ _ _
                (nan_or_at_most_add _ _ _ _ H1 H2 ltac:(lia)) H3 ltac:(lia))
    as Hsum.
  change (50 + 30 + 20) with 100 in Hsum.
  eapply (not_above _ _ 100); [by_evaluation | by_evaluation |].
  destruct Hsum as [Hnan|Hle].
  - left. now rewrite Math_round_nan.
  - right. apply Math_round_at_most; [lia | exact Hle].
Qed.

(** ** generateAIAnalysis *)

Section ScoringProperties.

Variable h : Host.

(** The AI path never throws, and an answer it gives is a number with the
    text of the response. *)
Lemma aiAnalysis_total p :
  exists o,
    aiAnalysis h p = Ok o
    /\ forall answer, o = Some answer ->
         exists score analysis,
           answer = VObject [("score", VNumber score);
                             ("analysis", VString analysis)].
Proof.
  unfold aiAnalysis.
  destruct (OPENAI_API_KEY h) as [key|]; [|exists None; split; [reflexivity|discriminate]].
  destruct (String.eqb key ""); [exists None; split; [reflexivity|discriminate]|].
  destruct (openai_create h p) as [response|e]; cbn [bind try_catch];
    [|exists None; split; [reflexivity|discriminate]].
  destruct (get response "choices") as [choices|e]; cbn [bind try_catch];
    [|exists None; split; [reflexivity|discriminate]].
  destruct (get_first choices) as [first|e]; cbn [bind try_catch];
    [|exists None; split; [reflexivity|discriminate]].
  destruct (get_optional first "message") as [message|e]; cbn [bind try_catch];
    [|exists None; split; [reflexivity|discriminate]].
  destruct (get_optional message "content") as [content|e]; cbn [bind try_catch];
    [|exists None; split; [reflexivity|discriminate]].
  destruct (or_else content (VString "")) as [| | | |text| |]; cbn [call_match bind try_catch];
    try (exists None; split; [reflexivity|discriminate]).
  destruct (match_score text) as [digits|]; cbn [try_catch];
    [|exists None; split; [reflexivity|discriminate]].
  eexists. split; [reflexivity|]. intros answer [= <-]. eauto.
Qed.

Lemma aiAnalysis_failure p e :
  openai_create h p = Throw e -> aiAnalysis h p = Ok None.
Proof.
  intros H. unfold aiAnalysis. rewrite H.
  destruct (OPENAI_API_KEY h) as [key|]; [|reflexivity].
  now destruct (String.eqb key "").
Qed.

Lemma totalScore_missing p :
  get p "financialMetrics" = Ok VUndefined
  \/ get p "riskAssessment" = Ok VUndefined ->
  exists e, totalScore h p = Throw e.
Proof.
  unfold totalScore. intros [H|H].
  - rewrite H. cbn [bind get]. eauto.
  - destruct (get p "financialMetrics") as [fm|]; cbn [bind]; [|eauto].
    destruct (get fm "rentalYield") as [ry|]; cbn [bind]; [|eauto].
    destruct (ToNumber h ry); cbn [bind]; [|eauto].
    rewrite H. cbn [bind get]. eauto.
Qed.

(** C2: the scoring never throws.  Whatever the record, it returns a
    score and an analysis; when the heuristic computation throws, as it
    does when financialMetrics or riskAssessment is missing, the result is
    the score 70 with the fixed narrative; and a failing AI call changes
    nothing: the result is the one obtained without the AI path. *)
Theorem generateAIAnalysis_never_throws p :
  (exists score analysis,
     generateAIAnalysis h p
     = Ok (VObject [("score", VNumber score); ("analysis", VString analysis)]))
  /\ (forall e, totalScore h p = Throw e ->
                generateAIAnalysis h p = Ok fallbackAnalysis)
  /\ (forall e, aiAnalysis h p = Ok None -> heuristicAnalysis h p = Throw e ->
                generateAIAnalysis h p = Ok fallbackAnalysis)
  /\ (get p "financialMetrics" = Ok VUndefined
      \/ get p "riskAssessment" = Ok VUndefined ->
      generateAIAnalysis h p = Ok fallbackAnalysis)
  /\ (forall e, openai_create h p = Throw e ->
                generateAIAnalysis h p = generateAIAnalysis (without_ai h) p).
Proof.
  assert (Hthrow : forall e, totalScore h p = Throw e ->
                             generateAIAnalysis h p = Ok fallbackAnalysis).
  { intros e He. unfold generateAIAnalysis. now rewrite He. }
  split; [|split; [exact Hthrow|split; [|split]]].
  - unfold generateAIAnalysis.
    destruct (totalScore h p) as [total|e]; cbn [bind try_catch];
      [|unfold fallbackAnalysis; eauto].
    destruct (aiAnalysis_total p) as (o & -> & Hshape). cbn [bind].
    destruct o as [answer|].
    + destruct (Hshape answer eq_refl) as (score & analysis & ->).
      cbn [try_catch]. eauto.
    + destruct (heuristicAnalysis h p) as [analysis|e]; cbn [bind try_catch];
        [|unfold fallbackAnalysis]; eauto.
  - intros e Hai He. unfold generateAIAnalysis. rewrite Hai, He.
    now destruct (totalScore h p).
  - intros Hmissing. destruct (totalScore_missing p Hmissing) as [e He].
    now apply (Hthrow e).
  - intros e He. unfold generateAIAnalysis.
    rewrite (aiAnalysis_failure p e He). reflexivity.
Qed.

(** C7: on the heuristic path the score is the rounded sum of the three
    capped components, min(rentalYield x 10, 50), min(riskScore x 0.3, 30)
    and min((80 above 70 square metres, else 60) / 20 x 10, 20), and it
    never exceeds 100. *)
Theorem heuristic_score_formula p fm ra rentalYield score squareMeters overall :
  get p "financialMetrics" = Ok fm ->
  get fm "rentalYield" = Ok (VNumber rentalYield) ->
  get p "riskAssessment" = Ok ra ->
  get ra "score" = Ok (VNumber score) ->
  get ra "overall" = Ok (VString overall) ->
  get p "squareMeters" = Ok (VNumber squareMeters) ->
  aiAnalysis h p = Ok None ->
  exists total analysis,
    generateAIAnalysis h p
    = Ok (VObject [("score", VNumber total); ("analysis", VString analysis)])
    /\ total
       = Math_round
           (Math_min (rentalYield * 10) 50 + Math_min (score * 0.3) 30
            + Math_min
                ((if (70 <? squareMeters)%float then 80 else 60) / 20 * 10) 20)%float
    /\ (100 <? total)%float = false.
Proof.
  intros Hfm Hry Hra Hscore Hoverall Hsqm Hai.
  unfold generateAIAnalysis, totalScore, heuristicAnalysis.
  rewrite Hfm. cbn [bind]. rewrite Hry. cbn [bind ToNumber call_toFixed2].
  rewrite Hra. cbn [bind]. rewrite Hscore. cbn [bind ToNumber].
  rewrite Hsqm. cbn [bind ToNumber]. rewrite Hai. cbn [bind].
  rewrite Hoverall. cbn [bind call_toLowerCase try_catch].
  do 2 eexists. split; [reflexivity|]. split; [reflexivity|].
  apply heuristic_score_bound.
Qed.

End ScoringProperties.

(* ================================================================== *)
(** * The theorems at work on the samples *)

Lemma calculateInvestmentMetrics_figures_witness :
  property_record example_property "Madrid" 450000 1950 90
  /\ (0 <? 450000)%float = true /\ (0 <? 1950)%float = true
  /\ exists r fm expenses annualRentalIncome totalExpenses netOperatingIncome,
       calculateInvestmentMetrics sample_host example_property = Ok r
       /\ get r "financialMetrics" = Ok fm
       /\ get fm "expenses" = Ok expenses
       /\ get fm "annualRentalIncome" = Ok (VNumber annualRentalIncome)
       /\ annualRentalIncome = (1950 * 12)%float
       /\ get expenses "propertyTax" = Ok (VNumber (450000 * 0.005))
       /\ get expenses "insurance" = Ok (VNumber (450000 * 0.002))
       /\ get expenses "maintenance" = Ok (VNumber (450000 * 0.01))
       /\ get expenses "managementFees"
          = Ok (VNumber (annualRentalIncome * 0.08))
       /\ get fm "totalExpenses" = Ok (VNumber totalExpenses)
       /\ totalExpenses
          = (450000 * 0.005 + 450000 * 0.002 + 450000 * 0.01
             + annualRentalIncome * 0.08)%float
       /\ get fm "netOperatingIncome" = Ok (VNumber netOperatingIncome)
       /\ netOperatingIncome = (annualRentalIncome - totalExpenses)%float
       /\ get fm "capRate" = Ok (VNumber (netOperatingIncome / 450000 * 100)).
Proof.
  split; [repeat split|]. split; [reflexivity|]. split; [reflexivity|].
  apply (proj1 (calculateInvestmentMetrics_figures sample_host)
           example_property "Madrid" 450000 1950 90)%float;
    [repeat split | reflexivity | reflexivity].
Defined.

Lemma generateAIAnalysis_never_throws_witness :
  get example_property "financialMetrics" = Ok VUndefined
  /\ generateAIAnalysis sample_host example_property = Ok fallbackAnalysis.
Proof.
  split; [reflexivity|].
  apply (generateAIAnalysis_never_throws sample_host example_property).
  left. reflexivity.
Defined.

Lemma scrapeProperty_cache_witness :
  let url := "https://www.fotocasa.es/vivienda/1" in
  let first := scrapeProperty (sample_session 1714557600000) url "fotocasa"
                 empty_world in
  (forall entry,
     propertyCache empty_world !! ("fotocasa" +:+ ":" +:+ url) = Some entry ->
     CACHE_TTL <= 1714557600000 - timestamp entry)
  /\ exists d,
       first.1 = Ok d
       /\ propertyCache first.2 !! ("fotocasa" +:+ ":" +:+ url)
          = Some {| timestamp := 1714557604000; data := d |}
       /\ browser_log first.2 = [Launch; Navigate url; Close]
       /\ scrapeProperty (sample_session 1714557660000) url "fotocasa" first.2
          = (Ok d, first.2)
       /\ exists rest,
            browser_log
              (scrapeProperty (sample_session 1714561204000) url "fotocasa"
                 first.2).2
            = browser_log first.2 ++ Launch :: rest.
Proof.
  intros url first.
  assert (Hmiss : forall entry,
     propertyCache empty_world !! ("fotocasa" +:+ ":" +:+ url) = Some entry ->
     CACHE_TTL <= now_at_check (sample_session 1714557600000) - timestamp entry).
  { intros entry H. vm_compute in H. discriminate H. }
  split; [exact Hmiss|].
  destruct (scrapeProperty_cache (sample_session 1714557600000) url "fotocasa"
              empty_world) as [_ Hscrape].
  destruct (Hscrape Hmiss) as (_ & _ & Hstored).
  destruct first as [[d|e] w'] eqn:Hfirst; [|vm_compute in Hfirst; discriminate Hfirst].
  exists d. split; [reflexivity|].
  destruct (Hstored d w' Hfirst) as (Hentry & Hlog & Hagain & Hlater).
  split; [exact Hentry|]. split; [exact Hlog|].
  split; [apply Hagain; vm_compute; reflexivity|].
  apply Hlater. vm_compute. discriminate.
Defined.

Lemma calculateInvestmentMetrics_no_validation_witness :
  property_record zero_area_property "Madrid" 450000 1950 0
  /\ exists r fm,
       calculateInvestmentMetrics sample_host zero_area_property = Ok r
       /\ get r "financialMetrics" = Ok fm
       /\ get fm "pricePerSquareMeter" = Ok (VNumber (450000 / 0))
       /\ (0%float = 0%float -> (0 <? 450000)%float = true ->
           (450000 / 0)%float = infinity).
Proof.
  split; [repeat split|].
  apply (calculateInvestmentMetrics_no_validation sample_host
           zero_area_property "Madrid" 450000 1950 0).
  repeat split.
Defined.

Lemma scrapeProperty_unsupported_witness :
  let url := "https://www.zoopla.co.uk/for-sale/details/1" in
  supported "zoopla" = false
  /\ cache_hit (sample_session 1714557600000) ("zoopla" +:+ ":" +:+ url)
       empty_world = None
  /\ exists e w',
       scrapeProperty (sample_session 1714557600000) url "zoopla" empty_world
       = (Throw e, w')
       /\ propertyCache w' = propertyCache empty_world
       /\ (exists rest, browser_log w' = browser_log empty_world ++ Launch :: rest)
       /\ (forall page,
             launch (sample_session 1714557600000) = Ok tt ->
             load (sample_session 1714557600000) url = Ok page ->
             close (sample_session 1714557600000) = Ok tt ->
             e = Error ("Unsupported platform: " +:+ "zoopla")
             /\ browser_log w'
                = browser_log empty_world ++ [Launch; Navigate url; Close]).
Proof.
  intros url. split; [reflexivity|]. split; [reflexivity|].
  apply (scrapeProperty_unsupported (sample_session 1714557600000) url "zoopla"
           empty_world); reflexivity.
Defined.

Lemma assessRisk_score_and_category_witness :
  risk_inputs sample_host example_property "Madrid" 450000 1950
  /\ exists (prime : bool) (r : value),
       (prime = true
        <-> contains_ci "Madrid" "madrid" \/ contains_ci "Madrid" "barcelona")
       /\ assessRisk sample_host example_property = Ok r
       /\ get r "score"
          = Ok (VNumber (Z_to_float
                  (risk_score_spec prime (1950 * 12 / 450000 * 100)%float)))
       /\ get r "overall"
          = Ok (VString (risk_category_spec
                  (risk_score_spec prime (1950 * 12 / 450000 * 100)%float))).
Proof.
  split; [repeat split; eexists; split; reflexivity|].
  apply (assessRisk_score_and_category sample_host example_property
           "Madrid" 450000 1950).
  repeat split; eexists; split; reflexivity.
Defined.

Lemma heuristic_score_formula_witness :
  aiAnalysis sample_host enriched_example = Ok None
  /\ exists total analysis,
       generateAIAnalysis sample_host enriched_example
       = Ok (VObject [("score", VNumber total); ("analysis", VString analysis)])
       /\ total
          = Math_round
              (Math_min (5.2 * 10) 50 + Math_min (90 * 0.3) 30
               + Math_min ((if (70 <? 90)%float then 80 else 60) / 20 * 10) 20)%float
       /\ (100 <? total)%float = false.
Proof.
  split; [reflexivity|].
  eapply (heuristic_score_formula sample_host enriched_example _ _
            5.2 90 90 "Very Low")%float; by_evaluation.
Defined.

Lemma calculateInvestmentMetrics_pure_witness :
  property_record example_property "Madrid" 450000 1950 90
  /\ exists r fm ra,
       calculateInvestmentMetrics sample_host example_property = Ok r
       /\ get r "financialMetrics" = Ok fm
       /\ get r "riskAssessment" = Ok ra
       /\ (forall r', calculateInvestmentMetrics sample_host example_property
                      = Ok r' -> r' = r)
       /\ (forall k, k <> "financialMetrics" -> k <> "riskAssessment" ->
                     get r k = get example_property k)
       /\ (forall p' ty,
             property_record p' "Madrid" 450000 1950 90 ->
             get example_property "propertyType" = Ok ty ->
             get p' "propertyType" = Ok ty ->
             exists r',
               calculateInvestmentMetrics sample_host p' = Ok r'
               /\ get r' "financialMetrics" = Ok fm
               /\ get r' "riskAssessment" = Ok ra).
Proof.
  split; [repeat split|].
  apply (calculateInvestmentMetrics_pure sample_host example_property
           "Madrid" 450000 1950 90).
  repeat split.
Defined.

Lemma parsers_without_selectors_witness :
  no_selector_matches empty_page
  /\ (exists r, parseIdealista empty_page "2024-05-01T10:00:00.000Z" = Ok r
                /\ default_fields r /\ get r "features" = Ok (VArray []))
  /\ (exists r, parseFotocasa empty_page "2024-05-01T10:00:00.000Z" = Ok r
                /\ default_fields r /\ get r "features" = Ok VUndefined)
  /\ (exists r, parseHabitaclia empty_page "2024-05-01T10:00:00.000Z" = Ok r
                /\ default_fields r /\ get r "features" = Ok VUndefined).
Proof.
  split; [split; reflexivity|].
  apply (parsers_without_selectors empty_page "2024-05-01T10:00:00.000Z").
  split; reflexivity.
Defined.

Lemma assessRisk_score_range_witness :
  risk_inputs sample_host example_property "Madrid" 450000 1950
  /\ exists r s c,
       assessRisk sample_host example_property = Ok r
       /\ get r "score" = Ok (VNumber s) /\ get r "overall" = Ok (VString c)
       /\ (s = 60 \/ s = 70 \/ s = 80 \/ s = 90)%float
       /\ (c = "Medium" \/ c = "Low" \/ c = "Very Low")
       /\ c <> "High" /\ c <> "Very High".
Proof.
  assert (Hin : risk_inputs sample_host example_property "Madrid" 450000 1950).
  { repeat split; eexists; split; reflexivity. }
  split; [exact Hin|].
  destruct (assessRisk_score_range sample_host example_property)
    as [Hrange Htotal].
  destruct (Htotal _ _ _ Hin) as [r Hr].
  destruct (Hrange r Hr) as (s & c & H).
  exists r, s, c. split; [exact Hr | exact H].
Defined.

(* ================================================================== *)
(** * Further properties *)

(** ** The parsers: numeric details and failures *)

Lemma match_backslash_d_some text m :
  match_backslash_d text = Some m -> exists ds, m = String "\" ds.
Proof.
  induction text as [|c rest IH]; simpl; [discriminate|].
  destruct (Ascii.eqb_spec c "\") as [->|_]; [|exact IH].
  destruct (take_while (Ascii.eqb "d") rest) as [|d ds]; [exact IH|].
  intros [= <-]. eauto.
Qed.


Lemma parseInt_backslash ds : parseInt (String "\" ds) = nan.
Proof. reflexivity. Qed.

Lemma parse_number_in_nan text v :
  parse_number_in text = Ok v -> v = VNumber nan.
Proof.
  unfold parse_number_in.
  destruct (match_backslash_d text) as [m|] eqn:Hm; [|discriminate].
  apply match_backslash_d_some in Hm as [ds ->].
  rewrite parseInt_backslash. now intros [= <-].
Qed.





Lemma details_so_far_empty : details_so_far [].
Proof. split; auto. Qed.

Lemma details_so_far_number key details :
  key = "squareMeters" \/ key = "bedrooms" \/ key = "bathrooms" ->
  details_so_far details ->
  details_so_far (set_field key (VNumber nan) details).
Proof.
  intros Hkey [Hnum Hty]. split.
  - intros k Hk. destruct (String.eqb_spec k key) as [->|Hne].
    + right. apply lookup_set_field_eq.
    + rewrite lookup_set_field_ne by assumption. auto.
  - rewrite lookup_set_field_ne; [exact Hty|].
    destruct Hkey as [->|[->| ->]]; discriminate.
Qed.

Lemma details_so_far_type s details :
  details_so_far details ->
  details_so_far (set_field "propertyType" (VString s) details).
Proof.
  intros [Hnum Hty]. split.
  - intros k Hk. rewrite lookup_set_field_ne; [auto|].
    destruct Hk as [->|[->| ->]]; discriminate.
  - right. exists s. apply lookup_set_field_eq.
Qed.

Lemma detail_number_so_far page selector key details details' :
  key = "squareMeters" \/ key = "bedrooms" \/ key = "bathrooms" ->
  details_so_far details ->
  detail_number page selector key details = Ok details' ->
  details_so_far details'.
Proof.
  intros Hkey Hd. unfold detail_number.
  destruct (querySelector page selector) as [el|]; [|now intros [= <-]].
  destruct (parse_number_in (trim (textContent el))) as [n|] eqn:Hn;
    cbn [bind]; [|discriminate].
  apply parse_number_in_nan in Hn as ->. intros [= <-].
  now apply details_so_far_number.
Qed.

Lemma fotocasa_feature_so_far el details details' :
  details_so_far details ->
  fotocasa_feature el details = Ok details' ->
  details_so_far details'.
Proof.
  intros Hd. unfold fotocasa_feature.
  repeat match goal with
  | |- context [if ?b then _ else _] => destruct b
  | |- context [parse_number_in ?t] =>
      let Hn := fresh "Hn" in
      destruct (parse_number_in t) as [n|] eqn:Hn; cbn [bind];
      [apply parse_number_in_nan in Hn as ->|discriminate]
  end; intros [= <-];
  auto using details_so_far_number, details_so_far_type.
Qed.

Lemma fotocasa_features_so_far elements : forall details details',
  details_so_far details ->
  fotocasa_features elements details = Ok details' ->
  details_so_far details'.
Proof.
  induction elements as [|el rest IH]; intros details details' Hd; simpl.
  - now intros [= <-].
  - destruct (fotocasa_feature el details) as [d1|] eqn:H1; cbn [bind];
      [|discriminate].
    apply IH. eapply fotocasa_feature_so_far; eassumption.
Qed.

Lemma details_number_default key details :
  key = "squareMeters" \/ key = "bedrooms" \/ key = "bathrooms" ->
  details_so_far details ->
  or_else (lookup_field key details) (VNumber 0) = VNumber 0.
Proof.
  intros Hkey [Hnum _]. destruct (Hnum key Hkey) as [-> | ->]; reflexivity.
Qed.

Lemma details_type_default details :
  details_so_far details ->
  exists s,
    or_else (lookup_field "propertyType" details) (VString "Apartment")
    = VString s.
Proof.
  intros [_ [-> | [s ->]]]; [exists "Apartment"; reflexivity|].
  unfold or_else. destruct (truthy (VString s)); eauto.
Qed.

Lemma extract_price_shape page selector :
  extract_price page selector = VNull
  \/ exists f, extract_price page selector = VNumber f.
Proof.
  unfold extract_price. destruct (querySelector page selector); eauto.
Qed.

Lemma parsed_record_intro address location price details rest :
  (price = VNull \/ exists f, price = VNumber f) ->
  details_so_far details ->
  parsed_record
    (VObject
       (("propertyAddress", VString address)
        :: ("location", VString location)
        :: ("purchasePrice", price)
        :: ("estimatedMonthlyRent", estimate_rent price)
        :: ("squareMeters",
             or_else (lookup_field "squareMeters" details) (VNumber 0))
        :: ("bedrooms", or_else (lookup_field "bedrooms" details) (VNumber 0))
        :: ("bathrooms", or_else (lookup_field "bathrooms" details) (VNumber 0))
        :: ("propertyType",
             or_else (lookup_field "propertyType" details) (VString "Apartment"))
        :: rest)).
Proof.
  intros Hprice Hd.
  rewrite !details_number_default by auto.
  destruct (details_type_default details Hd) as [ty ->].
  now exists address, location, price, ty, rest.
Qed.

Lemma parseIdealista_record page scrapedAt r :
  parseIdealista page scrapedAt = Ok r -> parsed_record r.
Proof.
  unfold parseIdealista.
  destruct (detail_number page (testid "house-surface-area") "squareMeters" [])
    as [d1|] eqn:H1; cbn [bind try_catch parse_failure]; [|discriminate].
  destruct (detail_number page (testid "house-bedrooms") "bedrooms" d1)
    as [d2|] eqn:H2; cbn [bind try_catch parse_failure]; [|discriminate].
  destruct (detail_number page (testid "house-bathrooms") "bathrooms" d2)
    as [d3|] eqn:H3; cbn [bind try_catch parse_failure]; [|discriminate].
  assert (Hd3 : details_so_far d3).
  { eapply detail_number_so_far; [| |exact H3]; auto.
    eapply detail_number_so_far; [| |exact H2]; auto.
    eapply detail_number_so_far; [| |exact H1]; auto using details_so_far_empty. }
  destruct (querySelector page ".property-type") as [el|];
    cbn [bind try_catch]; intros [= <-];
    apply parsed_record_intro;
    auto using extract_price_shape, details_so_far_type.
Qed.

Lemma parseFotocasa_record page scrapedAt r :
  parseFotocasa page scrapedAt = Ok r -> parsed_record r.
Proof.
  unfold parseFotocasa.
  destruct (fotocasa_features _ []) as [d|] eqn:Hd;
    cbn [bind try_catch parse_failure]; [|discriminate].
  intros [= <-]. apply parsed_record_intro; [apply extract_price_shape|].
  eapply fotocasa_features_so_far; [apply details_so_far_empty|exact Hd].
Qed.

Lemma parseHabitaclia_record page scrapedAt r :
  parseHabitaclia page scrapedAt = Ok r -> parsed_record r.
Proof.
  unfold parseHabitaclia.
  destruct (detail_number page ".feature-container .icon-m2 + span"
              "squareMeters" []) as [d1|] eqn:H1;
    cbn [bind try_catch parse_failure]; [|discriminate].
  destruct (detail_number page ".feature-container .icon-rooms + span"
              "bedrooms" d1) as [d2|] eqn:H2;
    cbn [bind try_catch parse_failure]; [|discriminate].
  destruct (detail_number page ".feature-container .icon-bathrooms + span"
              "bathrooms" d2) as [d3|] eqn:H3;
    cbn [bind try_catch parse_failure]; [|discriminate].
  assert (Hd3 : details_so_far d3).
  { eapply detail_number_so_far; [| |exact H3]; auto.
    eapply detail_number_so_far; [| |exact H2]; auto.
    eapply detail_number_so_far; [| |exact H1]; auto using details_so_far_empty. }
  destruct (List.last _ None) as [el|];
    cbn [bind try_catch]; intros [= <-];
    apply parsed_record_intro;
    auto using extract_price_shape, details_so_far_type.
Qed.

Lemma dispatch_record platform page scrapedAt r :
  dispatch platform page scrapedAt = Ok r -> parsed_record r.
Proof.
  unfold dispatch.
  destruct (String.eqb _ "idealista"); [apply parseIdealista_record|].
  destruct (String.eqb _ "fotocasa"); [apply parseFotocasa_record|].
  destruct (String.eqb _ "habitaclia"); [apply parseHabitaclia_record|].
  discriminate.
Qed.











(** ** The parsers: the price *)

Lemma space_is_no_digit c : is_space c = true -> is_digit c = false.
Proof.
  unfold is_space, is_digit. generalize (N_of_ascii c). intros n.
  rewrite !orb_true_iff, !andb_true_iff, andb_false_iff, !N.leb_le,
    !N.eqb_eq, !N.leb_gt. lia.
Qed.

Lemma filter_digits_trim_start s :
  filter_string is_digit (trim_start s) = filter_string is_digit s.
Proof.
  induction s as [|c rest IH]; simpl; [reflexivity|].
  destruct (is_space c) eqn:Hc; [|reflexivity].
  now rewrite (space_is_no_digit _ Hc).
Qed.

Lemma filter_digits_trim_end s :
  filter_string is_digit (trim_end s) = filter_string is_digit s.
Proof.
  induction s as [|c rest IH]; simpl; [reflexivity|].
  destruct (trim_end rest) as [|c' rest'] eqn:Hrest.
  - rewrite <- IH. destruct (is_space c) eqn:Hc; [|reflexivity].
    now rewrite (space_is_no_digit _ Hc).
  - simpl in *. now rewrite IH.
Qed.

Lemma all_digits_filter s : all_digits (filter_string is_digit s) = true.
Proof.
  induction s as [|c rest IH]; simpl; [reflexivity|].
  destruct (is_digit c) eqn:Hc; [simpl; now rewrite Hc|exact IH].
Qed.

Lemma take_while_all_digits s : all_digits s = true -> take_while is_digit s = s.
Proof.
  induction s as [|c rest IH]; simpl; [reflexivity|].
  destruct (is_digit c); [|discriminate]. simpl. intros H. now rewrite IH.
Qed.

Lemma digits_value_nonneg s : forall acc,
  all_digits s = true -> 0 <= acc -> 0 <= digits_value acc s.
Proof.
  induction s as [|c rest IH]; intros acc; simpl; [auto|].
  rewrite andb_true_iff. intros [Hc Hrest] Hacc. apply IH; [exact Hrest|].
  unfold is_digit in Hc. rewrite andb_true_iff, !N.leb_le in Hc. lia.
Qed.

(** parseInt of a run of digits is the number the digits write. *)
Lemma parseInt_digits c rest :
  all_digits (String c rest) = true ->
  parseInt (String c rest) = Z_to_float (digits_value 0 (String c rest)).
Proof.
  intros Hall. pose proof Hall as Hc. simpl in Hc.
  apply andb_true_iff in Hc as [Hc _].
  unfold parseInt.
  assert (Hspace : is_space c = false).
  { destruct (is_space c) eqn:E; [|reflexivity].
    now rewrite (space_is_no_digit _ E) in Hc. }
  cbn [trim_start]. rewrite Hspace.
  destruct c as [[] [] [] [] [] [] [] []]; try discriminate Hc;
    rewrite (take_while_all_digits _ Hall); reflexivity.
Qed.

(** X5: the price is read from the digits of the price text alone, in
    their order: separators, currency signs and white space are dropped,
    so 450.000 EUR reads 450000, and a text that writes the cents reads a
    hundred times more.  A price text without any digit gives NaN. *)
Theorem price_is_the_digits page selector el :
  querySelector page selector = Some el ->
  exists price,
    extract_price page selector = VNumber price
    /\ match filter_string is_digit (textContent el) with
       | EmptyString => price = nan
       | digits =>
           all_digits digits = true /\ 0 <= digits_value 0 digits
           /\ price = Z_to_float (digits_value 0 digits)
       end.
Proof.
  intros Hq. unfold extract_price. rewrite Hq. eexists. split; [reflexivity|].
  unfold trim. rewrite filter_digits_trim_end, filter_digits_trim_start.
  pose proof (all_digits_filter (textContent el)) as Hall.
  destruct (filter_string is_digit (textContent el)) as [|c rest];
    [reflexivity|].
  split; [exact Hall|]. split; [apply digits_value_nonneg; [exact Hall|lia]|].
  now apply parseInt_digits.
Qed.

(** ** scrapeProperty: sessions, failures and keys *)

(** X6: once the browser is launched it is closed on every path: a call
    that misses the cache and launches logs exactly a launch, the
    navigation and a close, whether the page loads or not, whether the
    parser succeeds or not, and whether the close itself succeeds or
    not.  When the launch fails there is nothing to close and the call
    fails with the launch error. *)
Theorem browser_session_is_released s url platform w :
  cache_hit s (platform +:+ ":" +:+ url) w = None ->
  (launch s = Ok tt ->
   browser_log (scrapeProperty s url platform w).2
   = browser_log w ++ [Launch; Navigate url; Close])
  /\ (forall e, launch s = Throw e ->
                scrapeProperty s url platform w = (Throw e, log Launch w)).
Proof.
  intros Hmiss. unfold scrapeProperty. rewrite Hmiss. split.
  - intros ->.
    destruct (let* page := load s url in dispatch platform page (iso_now s));
      unfold finally_close; destruct (close s); simpl;
      now rewrite <- !app_assoc.
  - now intros e ->.
Qed.

(** X7: a call that fails leaves the cache as it was, with one exception:
    when the parse had succeeded and it is the close of the browser that
    throws, the call fails with the error of the close and the record is
    in the cache all the same. *)
Theorem failed_scrape_and_the_cache s url platform w e w' :
  cache_hit s (platform +:+ ":" +:+ url) w = None ->
  scrapeProperty s url platform w = (Throw e, w') ->
  propertyCache w' = propertyCache w
  \/ exists d,
       (let* page := load s url in dispatch platform page (iso_now s)) = Ok d
       /\ close s = Throw e
       /\ propertyCache w'
          = <[platform +:+ ":" +:+ url
              := {| timestamp := now_at_store s; data := d |}]>
              (propertyCache w).
Proof.
  intros Hmiss. unfold scrapeProperty. rewrite Hmiss.
  destruct (launch s); [|intros [= <- <-]; now left].
  destruct (let* page := load s url in dispatch platform page (iso_now s))
    as [d|e1]; unfold finally_close; destruct (close s) as [[]|e2];
    intros [= <- <-]; try (now left).
  right. exists d. repeat split.
Qed.

(** X8: when the close throws after a successful parse, the caller gets
    the error, yet the next call for the same platform and url within the
    TTL is served the record from the cache, with no browser work. *)
Theorem close_failure_still_caches s url platform w page d e :
  cache_hit s (platform +:+ ":" +:+ url) w = None ->
  launch s = Ok tt -> load s url = Ok page ->
  dispatch platform page (iso_now s) = Ok d ->
  close s = Throw e ->
  exists w',
    scrapeProperty s url platform w = (Throw e, w')
    /\ forall s2,
         now_at_check s2 - now_at_store s < CACHE_TTL ->
         scrapeProperty s2 url platform w' = (Ok d, w').
Proof.
  intros Hmiss Hl Hp Hd Hc. unfold scrapeProperty at 1.
  rewrite Hmiss, Hl, Hp. cbn [bind]. rewrite Hd. unfold finally_close.
  rewrite Hc. eexists. split; [reflexivity|].
  intros s2 Hfresh. unfold scrapeProperty.
  rewrite (cache_hit_fresh _ _ _ {| timestamp := now_at_store s; data := d |});
    [reflexivity|simpl; apply lookup_insert_eq|exact Hfresh].
Qed.

Lemma scrapeProperty_frame s url platform w key :
  key <> platform +:+ ":" +:+ url ->
  propertyCache (scrapeProperty s url platform w).2 !! key
  = propertyCache w !! key.
Proof.
  intros Hkey. unfold scrapeProperty.
  destruct (cache_hit s _ w); [reflexivity|].
  destruct (launch s); [|reflexivity].
  destruct (let* page := load s url in dispatch platform page (iso_now s));
    unfold finally_close; destruct (close s); simpl;
    try reflexivity; now apply lookup_insert_ne.
Qed.


Lemma length_append (s t : string) :
  String.length (s +:+ t) = (String.length s + String.length t)%nat.
Proof. induction s; simpl; congruence. Qed.

Lemma append_inj_l (s1 s2 t : string) : s1 +:+ t = s2 +:+ t -> s1 = s2.
Proof.
  revert s2. induction s1 as [|c s1 IH]; intros s2 H.
  - destruct s2 as [|c2 s2]; [reflexivity|exfalso].
    apply (f_equal String.length) in H. simpl in H.
    rewrite length_append in H. lia.
  - destruct s2 as [|c2 s2].
    + exfalso. apply (f_equal String.length) in H. simpl in H.
      rewrite length_append in H. lia.
    + simpl in H. injection H as -> H. f_equal. now apply IH.
Qed.

Lemma dispatch_lower platform1 platform2 page scrapedAt :
  toLowerCase platform1 = toLowerCase platform2 ->
  supported platform1 = true ->
  dispatch platform1 page scrapedAt = dispatch platform2 page scrapedAt.
Proof.
  unfold supported, dispatch. intros <- Hs.
  destruct (String.eqb _ "idealista"); [reflexivity|].
  destruct (String.eqb _ "fotocasa"); [reflexivity|].
  destruct (String.eqb _ "habitaclia"); [reflexivity|discriminate].
Qed.

(** X10: the platform tag picks the parser without regard to letter case
    but keys the cache as it is written: two spellings of a supported tag
    run the same parser, yet the result cached under one is not found
    under the other, and the second spelling launches the browser
    again. *)
Theorem platform_case_splits_the_cache s1 s2 url platform1 platform2 w :
  platform1 <> platform2 ->
  toLowerCase platform1 = toLowerCase platform2 ->
  supported platform1 = true ->
  (forall page scrapedAt,
     dispatch platform1 page scrapedAt = dispatch platform2 page scrapedAt)
  /\ (propertyCache w !! (platform2 +:+ ":" +:+ url) = None ->
      exists rest,
        browser_log
          (scrapeProperty s2 url platform2
             (scrapeProperty s1 url platform1 w).2).2
        = browser_log (scrapeProperty s1 url platform1 w).2 ++ Launch :: rest).
Proof.
  intros Hne Hlower Hsup. split.
  - intros page scrapedAt. now apply dispatch_lower.
  - intros Hnone. apply scrapeProperty_miss. unfold cache_hit.
    rewrite scrapeProperty_frame, Hnone; [reflexivity|].
    intros Heq. apply Hne. symmetry. eapply append_inj_l, Heq.
Qed.

(** X11: the key is the plain concatenation platform:url, and a hit is
    served without looking at the platform.  So when two pairs of
    platform and url concatenate to the same key, the record scraped for
    one is returned for the other, supported platform or not, with no
    browser work. *)
Theorem colliding_keys_share_an_entry s1 s2 url1 platform1 url2 platform2 w d w1 :
  platform1 +:+ ":" +:+ url1 = platform2 +:+ ":" +:+ url2 ->
  cache_hit s1 (platform1 +:+ ":" +:+ url1) w = None ->
  scrapeProperty s1 url1 platform1 w = (Ok d, w1) ->
  now_at_check s2 - now_at_store s1 < CACHE_TTL ->
  scrapeProperty s2 url2 platform2 w1 = (Ok d, w1).
Proof.
  intros Hkey Hmiss Hrun Hfresh.
  pose proof (scrapeProperty_success _ _ _ _ _ _ Hmiss Hrun) as ->.
  unfold scrapeProperty. rewrite <- Hkey.
  rewrite (cache_hit_fresh _ _ _ {| timestamp := now_at_store s1; data := d |});
    [reflexivity|simpl; apply lookup_insert_eq|exact Hfresh].
Qed.

(** ** The metrics engine on what it is given *)

Lemma call_toLowerCase_not_string v :
  (forall s, v <> VString s) -> call_toLowerCase v = Throw TypeError.
Proof. destruct v; intros H; try reflexivity. now destruct (H s). Qed.

(** X12: a record whose location is missing or is not a string cannot be
    enriched: with numeric readings for rent, price and area, the metrics
    engine, and the risk assessment alone, throw a TypeError. *)
Theorem enrichment_needs_a_string_location h fields rent price area :
  (forall s, lookup_field "location" fields <> VString s) ->
  ToNumber h (lookup_field "estimatedMonthlyRent" fields) = Ok rent ->
  ToNumber h (lookup_field "purchasePrice" fields) = Ok price ->
  ToNumber h (lookup_field "squareMeters" fields) = Ok area ->
  assessRisk h (VObject fields) = Throw TypeError
  /\ calculateInvestmentMetrics h (VObject fields) = Throw TypeError.
Proof.
  intros Hloc Hr Hp Ha.
  assert (Hrisk : assessRisk h (VObject fields) = Throw TypeError).
  { unfold assessRisk, is_prime_location. cbn [get bind].
    now rewrite call_toLowerCase_not_string. }
  split; [exact Hrisk|].
  unfold calculateInvestmentMetrics. cbn [get bind].
  rewrite Hr, Hp, Ha. cbn [bind]. now rewrite Hrisk.
Qed.

(** X13: the rental yield reported among the financial metrics and the
    one reported among the risk factors are the same number. *)
Theorem reported_yields_agree h p loc price rent area :
  property_record p loc price rent area ->
  exists r fm ra factors yield,
    calculateInvestmentMetrics h p = Ok r
    /\ get r "financialMetrics" = Ok fm
    /\ get fm "rentalYield" = Ok (VNumber yield)
    /\ get r "riskAssessment" = Ok ra
    /\ get ra "factors" = Ok factors
    /\ get factors "rentalYield" = Ok (VNumber yield).
Proof.
  intros Hrec.
  destruct (calculateInvestmentMetrics_record h _ _ _ _ _ Hrec)
    as (fields & ra & -> & Hrisk & Hcalc).
  destruct (assessRisk_inputs h _ _ _ _
              (property_record_risk_inputs h _ _ _ _ _ Hrec)) as (ty & _ & Hra).
  rewrite Hra in Hrisk. injection Hrisk as <-.
  rewrite Hcalc. do 5 eexists.
  split; [reflexivity|]. split; [apply enriched_financialMetrics|].
  split; [reflexivity|]. split; [apply enriched_riskAssessment|].
  split; reflexivity.
Qed.

Lemma ToNumber_estimate_rent h price :
  exists rent, ToNumber h (estimate_rent price) = Ok rent.
Proof.
  unfold estimate_rent. destruct price; try (eexists; reflexivity).
  destruct (truthy (VNumber f)); eexists; reflexivity.
Qed.

Lemma ToNumber_price h price :
  price = VNull \/ (exists f, price = VNumber f) ->
  exists f, ToNumber h price = Ok f
            /\ forall f', price = VNumber f' -> f = f'.
Proof.
  intros [->|[f ->]]; eexists; (split; [reflexivity|]); [discriminate|].
  now intros f' [= <-].
Qed.

(** A record of the parsers is always enriched, with an area of 0. *)
Lemma parsed_record_enriches h r :
  parsed_record r ->
  exists fields pricev price rent ra,
    r = VObject fields
    /\ lookup_field "purchasePrice" fields = pricev
    /\ ToNumber h pricev = Ok price
    /\ (forall f, pricev = VNumber f -> price = f)
    /\ ToNumber h (estimate_rent pricev) = Ok rent
    /\ assessRisk h r = Ok ra
    /\ calculateInvestmentMetrics h r
       = Ok (VObject
               (set_field "riskAssessment" ra
                  (set_field "financialMetrics"
                     (financialMetrics h pricev (estimate_rent pricev)
                                       price rent 0)
                     fields))).
Proof.
  intros (a & l & pv & ty & rest & -> & Hprice).
  destruct (ToNumber_price h pv Hprice) as (price & Hp & Hpf).
  destruct (ToNumber_estimate_rent h pv) as (rent & Hr).
  destruct (assessRisk_inputs h
              (VObject
                 (("propertyAddress", VString a) :: ("location", VString l)
                  :: ("purchasePrice", pv)
                  :: ("estimatedMonthlyRent", estimate_rent pv)
                  :: ("squareMeters", VNumber 0) :: ("bedrooms", VNumber 0)
                  :: ("bathrooms", VNumber 0) :: ("propertyType", VString ty)
                  :: rest)) l price rent) as (t & _ & Hrisk).
  { split; [reflexivity|]. split; eexists; (split; [reflexivity|assumption]). }
  do 5 eexists. split; [reflexivity|]. split; [reflexivity|].
  split; [exact Hp|]. split; [exact Hpf|]. split; [exact Hr|].
  split; [exact Hrisk|].
  unfold calculateInvestmentMetrics. cbn [get bind lookup_field String.eqb
    Ascii.eqb Bool.eqb]. rewrite Hr, Hp. cbn [bind ToNumber]. rewrite Hrisk.
  reflexivity.
Qed.

(** X14: every record that comes out of a parser is enriched without
    error, and since its area is 0 its price per square metre is the
    quotient of the price by 0: +Infinity as soon as the price is
    positive. *)
Theorem scraped_listings_have_no_price_per_area h r :
  parsed_record r ->
  exists enriched fm,
    calculateInvestmentMetrics h r = Ok enriched
    /\ get enriched "financialMetrics" = Ok fm
    /\ forall price,
         get r "purchasePrice" = Ok (VNumber price) ->
         get fm "pricePerSquareMeter" = Ok (VNumber (price / 0))
         /\ ((0 <? price)%float = true -> (price / 0)%float = infinity).
Proof.
  intros Hrec.
  destruct (parsed_record_enriches h r Hrec)
    as (fields & pv & price & rent & ra & -> & Hpv & Hp & Hpf & Hr & _ & Hcalc).
  rewrite Hcalc. do 2 eexists. split; [reflexivity|].
  split; [apply enriched_financialMetrics|].
  intros f Hf. rewrite get_object, Hpv in Hf. injection Hf as ->.
  rewrite (Hpf f eq_refl). split; [reflexivity|apply div_positive_by_zero].
Qed.

Lemma Prim2SF_nan : Prim2SF nan = S754_nan.
Proof. reflexivity. Qed.

Lemma nan_div (y : float) : (nan / y)%float = nan.
Proof. apply Prim2SF_inj. now rewrite div_spec, Prim2SF_nan. Qed.

Lemma nan_add (y : float) : (nan + y)%float = nan.
Proof. apply Prim2SF_inj. now rewrite add_spec, Prim2SF_nan. Qed.

(** X15: the square metres have no part in the heuristic score: the
    component computed from them is 20 whatever the area, NaN
    included. *)
Theorem area_never_counts squareMeters : locationScore squareMeters = 20%float.
Proof.
  unfold locationScore. destruct (70 <? squareMeters)%float; by_evaluation.
Qed.

(** X16: a listing without a usable price (none on the page, or a price
    text that reads 0 or NaN) has no rent estimate, and goes through the
    metrics and the scoring without any error: its rental yield is NaN,
    and on the heuristic path its score is NaN, not a number from 0 to
    100 and not the fallback 70. *)
Theorem unpriced_listing_scores_nan h r :
  parsed_record r ->
  get r "estimatedMonthlyRent" = Ok VUndefined ->
  exists enriched fm,
    calculateInvestmentMetrics h r = Ok enriched
    /\ get enriched "financialMetrics" = Ok fm
    /\ get fm "rentalYield" = Ok (VNumber nan)
    /\ (aiAnalysis h enriched = Ok None ->
        exists analysis,
          generateAIAnalysis h enriched
          = Ok (VObject [("score", VNumber nan);
                         ("analysis", VString analysis)])).
Proof.
  intros Hrec Hrent.
  destruct (parsed_record_enriches h r Hrec)
    as (fields & pv & price & rent & ra & Hfields & Hpv & Hp & _ & Hr & Hrisk
        & Hcalc).
  destruct Hrec as (a & l & pv' & ty & rest & -> & _).
  injection Hfields as <-. cbn in Hpv. subst pv'.
  assert (Hundef : estimate_rent pv = VUndefined) by now injection Hrent.
  rewrite Hundef in Hr, Hcalc, Hrisk |- *. injection Hr as <-.
  destruct (assessRisk_shape h _ _ Hrisk) as (prime & ry & factors & ->).
  rewrite Hcalc. do 2 eexists. split; [reflexivity|].
  split; [apply enriched_financialMetrics|].
  assert (Hyield : (nan * 12 / price * 100)%float = nan).
  { change (nan * 12)%float with nan. rewrite nan_div. reflexivity. }
  split; [unfold financialMetrics; cbn [get lookup_field String.eqb Ascii.eqb
            Bool.eqb]; now rewrite Hyield|].
  intros Hai.
  unfold generateAIAnalysis, totalScore, heuristicAnalysis.
  rewrite enriched_financialMetrics, enriched_riskAssessment, Hai.
  rewrite (enriched_other _ _ _ "squareMeters") by discriminate.
  unfold financialMetrics.
  cbn [get bind lookup_field String.eqb Ascii.eqb Bool.eqb ToNumber
       call_toFixed2 call_toLowerCase try_catch].
  rewrite Hyield. eexists. f_equal. f_equal. f_equal. f_equal. f_equal.
  unfold rentalYieldScore. change (Math_min (nan * 10) 50) with nan.
  rewrite !nan_add. reflexivity.
Qed.

(** ** The AI path *)

Lemma all_digits_take_while s : all_digits (take_while is_digit s) = true.
Proof.
  induction s as [|c rest IH]; simpl; [reflexivity|].
  destruct (is_digit c) eqn:Hc; [simpl; now rewrite Hc|reflexivity].
Qed.

Lemma lazy_digits_some s digits :
  lazy_digits s = Some digits ->
  digits <> EmptyString /\ all_digits digits = true.
Proof.
  induction s as [|c rest IH]; simpl; [discriminate|].
  destruct (is_digit c) eqn:Hc.
  - intros [= <-]. split; [discriminate|].
    simpl. rewrite Hc. apply all_digits_take_while.
  - destruct (is_line_terminator c); [discriminate|exact IH].
Qed.

Lemma match_score_cons c rest :
  match_score (String c rest)
  = match starts_with_ci "score" (String c rest) with
    | Some after =>
        match lazy_digits after with
        | Some digits => Some digits
        | None => match_score rest
        end
    | None => match_score rest
    end.
Proof.
  cbn [match_score]. destruct (starts_with_ci "score" (String c rest));
    reflexivity.
Qed.

Lemma match_score_some s digits :
  match_score s = Some digits ->
  digits <> EmptyString /\ all_digits digits = true.
Proof.
  induction s as [|c rest IH]; [discriminate|].
  rewrite match_score_cons.
  destruct (starts_with_ci "score" (String c rest)) as [after|]; [|exact IH].
  destruct (lazy_digits after) as [ds|] eqn:Hhere; [|exact IH].
  intros [= <-]. eapply lazy_digits_some, Hhere.
Qed.

(** X17: when the AI path answers, the score is the number written by a
    run of digits found in the response: never NaN, never negative, and
    taken as it is, whatever its size; the analysis is the text of the
    response. *)
Theorem ai_score_is_a_written_number h p answer :
  aiAnalysis h p = Ok (Some answer) ->
  exists digits text,
    answer = VObject [("score", VNumber (Z_to_float (digits_value 0 digits)));
                      ("analysis", VString text)]
    /\ match_score text = Some digits
    /\ all_digits digits = true
    /\ 0 <= digits_value 0 digits.
Proof.
  unfold aiAnalysis.
  destruct (OPENAI_API_KEY h) as [key|]; [|discriminate].
  destruct (String.eqb key ""); [discriminate|].
  destruct (openai_create h p) as [response|]; cbn [bind try_catch];
    [|discriminate].
  destruct (get response "choices") as [choices|]; cbn [bind try_catch];
    [|discriminate].
  destruct (get_first choices) as [first|]; cbn [bind try_catch];
    [|discriminate].
  destruct (get_optional first "message") as [message|]; cbn [bind try_catch];
    [|discriminate].
  destruct (get_optional message "content") as [content|]; cbn [bind try_catch];
    [|discriminate].
  destruct (or_else content (VString "")) as [| | | |text| |];
    cbn [call_match bind try_catch]; try discriminate.
  destruct (match_score text) as [digits|] eqn:Hm; cbn [try_catch];
    [|discriminate].
  intros [= <-]. destruct (match_score_some _ _ Hm) as [Hne Hall].
  exists digits, text.
  destruct digits as [|c rest]; [now destruct Hne|].
  rewrite (parseInt_digits _ _ Hall).
  split; [reflexivity|]. split; [exact Hm|]. split; [exact Hall|].
  apply digits_value_nonneg; [exact Hall|lia].
Qed.

Lemma contains_ci_tail c s t : contains_ci s t -> contains_ci (String c s) t.
Proof.
  intros (b & m & a & -> & Hm). now exists (String c b), m, a.
Qed.

Lemma starts_with_ci_some t : forall s after,
  starts_with_ci t s = Some after ->
  exists word, s = word +:+ after /\ toLowerCase word = t.
Proof.
  induction t as [|a t IH]; intros s after; simpl.
  - intros [= <-]. now exists EmptyString.
  - destruct s as [|b s]; [discriminate|].
    destruct (Ascii.eqb_spec a (lower_ascii b)) as [->|]; [|discriminate].
    intros H. destruct (IH _ _ H) as (word & -> & <-).
    now exists (String b word).
Qed.

Lemma starts_with_ci_word word : forall after,
  starts_with_ci (toLowerCase word) (word +:+ after) = Some after.
Proof.
  induction word as [|c word IH]; intros after; simpl; [reflexivity|].
  now rewrite Ascii.eqb_refl.
Qed.

Lemma match_score_none s :
  ~ contains_ci s "score" -> match_score s = None.
Proof.
  induction s as [|c rest IH]; intros Hno.
  - reflexivity.
  - rewrite match_score_cons.
    destruct (starts_with_ci "score" (String c rest)) as [after|] eqn:Hs.
    + exfalso. apply Hno.
      apply starts_with_ci_some in Hs as (word & Hw & Hl).
      exists EmptyString, word, after. split; [exact Hw|exact Hl].
    + apply IH. intros H. apply Hno. now apply contains_ci_tail.
Qed.

Lemma aiAnalysis_answering h text p :
  aiAnalysis (answering_host h text) p
  = match match_score text with
    | Some digits =>
        Ok (Some (VObject [("score", VNumber (parseInt digits));
                           ("analysis", VString text)]))
    | None => Ok None
    end.
Proof.
  unfold aiAnalysis, answering_host.
  cbn [OPENAI_API_KEY openai_create String.eqb Ascii.eqb Bool.eqb bind get
       lookup_field get_first get_optional List.hd try_catch].
  destruct text as [|c rest];
    cbn [or_else truthy String.eqb negb call_match bind try_catch].
  - reflexivity.
  - destruct (match_score (String c rest)); reflexivity.
Qed.

Lemma generateAIAnalysis_without_answer h p :
  aiAnalysis h p = Ok None ->
  generateAIAnalysis h p = generateAIAnalysis (without_ai h) p.
Proof. intros H. unfold generateAIAnalysis. now rewrite H. Qed.

(** X18: an answer of the AI client in which the word score does not
    occur, in any letter case, is set aside: the result is the one of the
    heuristic, as if no client were configured. *)
Theorem answer_without_score_is_set_aside h text p :
  ~ contains_ci text "score" ->
  generateAIAnalysis (answering_host h text) p
  = generateAIAnalysis (without_ai h) p.
Proof.
  intros Hno. unfold generateAIAnalysis at 1.
  rewrite aiAnalysis_answering, (match_score_none _ Hno). reflexivity.
Qed.

Lemma take_while_digits_append digits rest :
  all_digits digits = true -> starts_with_digit rest = false ->
  take_while is_digit (digits +:+ rest) = digits.
Proof.
  intros Hd Hr. induction digits as [|c digits IH]; simpl.
  - destruct rest as [|c rest]; [reflexivity|]. simpl in *. now rewrite Hr.
  - simpl in Hd. apply andb_true_iff in Hd as [-> Hd]. now rewrite IH.
Qed.

Lemma lazy_digits_gap gap c digits rest :
  plain_gap gap = true -> all_digits (String c digits) = true ->
  starts_with_digit rest = false ->
  lazy_digits (gap +:+ String c digits +:+ rest) = Some (String c digits).
Proof.
  intros Hgap Hd Hr. induction gap as [|g gap IH].
  - pose proof (take_while_digits_append _ _ Hd Hr) as Ht.
    cbn [all_digits] in Hd. apply andb_true_iff in Hd as [Hc _].
    cbn [String.append lazy_digits] in *. now rewrite Hc, Ht.
  - cbn [plain_gap] in Hgap. rewrite !andb_true_iff, !negb_true_iff in Hgap.
    destruct Hgap as [[Hg1 Hg2] Hgap].
    cbn [String.append lazy_digits]. rewrite Hg1, Hg2. now apply IH.
Qed.

(** X19: when the response starts with the word score, in any letter
    case, followed on the same line by a run of digits, the number they
    write is returned as the score in place of the heuristic one, with
    the response as the analysis: a response Score: 250 gives 250. *)
Theorem ai_score_replaces_the_heuristic h p word gap c digits rest total :
  toLowerCase word = "score" ->
  plain_gap gap = true ->
  all_digits (String c digits) = true ->
  starts_with_digit rest = false ->
  totalScore h p = Ok total ->
  let text := word +:+ gap +:+ String c digits +:+ rest in
  generateAIAnalysis (answering_host h text) p
  = Ok (VObject
          [("score", VNumber (Z_to_float (digits_value 0 (String c digits))));
           ("analysis", VString text)]).
Proof.
  intros Hword Hgap Hd Hr Htotal text.
  assert (Hmatch : match_score text = Some (String c digits)).
  { unfold text. destruct word as [|w word]; [discriminate|].
    change (String w word +:+ gap +:+ String c digits +:+ rest)
      with (String w (word +:+ gap +:+ String c digits +:+ rest)).
    rewrite match_score_cons.
    change (String w (word +:+ gap +:+ String c digits +:+ rest))
      with (String w word +:+ gap +:+ String c digits +:+ rest).
    rewrite <- Hword, starts_with_ci_word.
    now rewrite (lazy_digits_gap _ _ _ _ Hgap Hd Hr). }
  unfold generateAIAnalysis.
  change (totalScore (answering_host h text) p) with (totalScore h p).
  rewrite Htotal, aiAnalysis_answering, Hmatch. cbn [bind try_catch].
  now rewrite (parseInt_digits _ _ Hd).
Qed.

(** ** The cache and the handler *)

Lemma scrapeProperty_cache_cases s url platform w :
  scrapeProperty s url platform w = ((scrapeProperty s url platform w).1, w)
  \/ propertyCache (scrapeProperty s url platform w).2 = propertyCache w
  \/ exists d page,
       dispatch platform page (iso_now s) = Ok d
       /\ propertyCache (scrapeProperty s url platform w).2
          = <[platform +:+ ":" +:+ url
              := {| timestamp := now_at_store s; data := d |}]>
              (propertyCache w)
       /\ forall d', (scrapeProperty s url platform w).1 = Ok d' -> d' = d.
Proof.
  unfold scrapeProperty.
  destruct (cache_hit s _ w); [now left|right].
  destruct (launch s); [|now left].
  destruct (load s url) as [page|]; cbn [bind].
  - destruct (dispatch platform page (iso_now s)) as [d|] eqn:Hd;
      unfold finally_close; destruct (close s); simpl; try (now left);
      right; exists d, page; repeat split; congruence.
  - unfold finally_close; destruct (close s); now left.
Qed.

Lemma cache_hit_some s key w cached :
  cache_hit s key w = Some cached ->
  exists entry, propertyCache w !! key = Some entry /\ data entry = cached.
Proof.
  unfold cache_hit. destruct (propertyCache w !! key) as [entry|]; [|discriminate].
  destruct (_ <? _); [|discriminate]. intros [= <-]. eauto.
Qed.

Lemma scrapeProperty_keeps_records s url platform w :
  cache_holds_records w ->
  cache_holds_records (scrapeProperty s url platform w).2.
Proof.
  intros Hw.
  destruct (scrapeProperty_cache_cases s url platform w)
    as [Hsame|[Hsame|(d & page & Hd & Hnew & _)]].
  - rewrite Hsame. exact Hw.
  - intros key entry. rewrite Hsame. apply Hw.
  - intros key entry. rewrite Hnew.
    destruct (decide (key = platform +:+ ":" +:+ url)) as [->|Hne].
    + rewrite lookup_insert_eq. intros [= <-]. simpl.
      eapply dispatch_record, Hd.
    + rewrite lookup_insert_ne by congruence. apply Hw.
Qed.

Lemma scrapeProperty_returns_record s url platform w d :
  cache_holds_records w ->
  (scrapeProperty s url platform w).1 = Ok d -> parsed_record d.
Proof.
  intros Hw. unfold scrapeProperty.
  destruct (cache_hit s _ w) as [cached|] eqn:Hhit.
  - intros [= <-]. apply cache_hit_some in Hhit as (entry & He & <-).
    eapply Hw, He.
  - destruct (launch s); [|discriminate].
    destruct (load s url) as [page|]; cbn [bind].
    + destruct (dispatch platform page (iso_now s)) as [d'|] eqn:Hd;
        unfold finally_close; destruct (close s); simpl; try discriminate.
      intros [= <-]. eapply dispatch_record, Hd.
    + unfold finally_close; destruct (close s); discriminate.
Qed.

(** X20: the cache only ever holds records of the parsers.  Starting
    from a cache of such records (the empty one, say), after any call it
    still is one, and whatever a call returns, from the cache or from the
    page, is such a record: 0 square metres, 0 rooms, string location. *)
Theorem cache_only_holds_parser_records s url platform w :
  cache_holds_records w ->
  cache_holds_records (scrapeProperty s url platform w).2
  /\ forall d, (scrapeProperty s url platform w).1 = Ok d -> parsed_record d.
Proof.
  intros Hw. split.
  - now apply scrapeProperty_keeps_records.
  - intros d. now apply scrapeProperty_returns_record.
Qed.

Lemma generateAIAnalysis_shape h p :
  exists score analysis,
    generateAIAnalysis h p
    = Ok (VObject [("score", VNumber score); ("analysis", VString analysis)]).
Proof.
  unfold generateAIAnalysis.
  destruct (totalScore h p) as [total|e]; cbn [bind try_catch];
    [|unfold fallbackAnalysis; eauto].
  destruct (aiAnalysis_total h p) as (o & -> & Hshape). cbn [bind].
  destruct o as [answer|].
  - destruct (Hshape answer eq_refl) as (score & analysis & ->).
    cbn [try_catch]. eauto.
  - destruct (heuristicAnalysis h p) as [analysis|e]; cbn [bind try_catch];
      [|unfold fallbackAnalysis]; eauto.
Qed.

Lemma analyse_enriched h c req propertyData enriched :
  calculateInvestmentMetrics h propertyData = Ok enriched ->
  exists response,
    analyse h c req propertyData = Ok response /\ status response = 200.
Proof.
  intros Hcalc. unfold analyse. rewrite Hcalc. cbn [bind].
  destruct (generateAIAnalysis_shape h enriched) as (score & analysis & ->).
  cbn [bind get lookup_field String.eqb Ascii.eqb Bool.eqb].
  eexists. split; reflexivity.
Qed.

Lemma mockProperty_record c req :
  exists location,
    property_record (mockProperty c req) location 450000 1950 90.
Proof.
  unfold mockProperty.
  destruct (String.eqb (body_platform req) "idealista");
    [|destruct (String.eqb (body_platform req) "fotocasa")];
    eexists; repeat split.
Qed.

(** X21: the handler answers 200 or 400, never 500, and keeps the cache a
    cache of parser records.  Without a url and without mock data it
    answers 400, URL is required, and does nothing else; with mock data
    it answers 200 and neither reads nor writes the cache nor opens a
    browser; otherwise it answers 400 exactly when the scrape fails, and
    200 with the enriched and scored record when it succeeds. *)
Theorem handler_answers_200_or_400 h c req w :
  cache_holds_records w ->
  let answer := property_analysis h c req w in
  cache_holds_records answer.2
  /\ (status answer.1 = 200 \/ status answer.1 = 400)
  /\ (missing_url req = true ->
      answer = (failure 400 "URL is required" "Missing URL", w))
  /\ (body_useMockData req = true -> status answer.1 = 200 /\ answer.2 = w)
  /\ (missing_url req = false -> body_useMockData req = false ->
      forall url, body_url req = Some url ->
        let scrape := scrapeProperty (session c) url (body_platform req) w in
        answer.2 = scrape.2
        /\ (forall d, scrape.1 = Ok d -> status answer.1 = 200)
        /\ (forall e, scrape.1 = Throw e ->
              answer.1 = failure 400 "Failed to scrape property data"
                           (message_of e))).
Proof.
  intros Hw answer. unfold answer, property_analysis. fold (missing_url req).
  destruct (missing_url req) eqn:Hmissing.
  { split; [exact Hw|]. split; [now right|]. split; [reflexivity|].
    split; [|discriminate].
    intros Hmock. unfold missing_url in Hmissing. rewrite Hmock in Hmissing.
    now rewrite andb_false_r in Hmissing. }
  destruct (body_useMockData req) eqn:Hmock.
  { destruct (mockProperty_record c req) as [location Hrec].
    destruct (calculateInvestmentMetrics_record h _ _ _ _ _ Hrec)
      as (fields & ra & _ & _ & Hcalc).
    destruct (analyse_enriched h c req _ _ Hcalc) as (response & -> & Hstatus).
    cbn [server_error fst snd]. rewrite Hstatus.
    split; [exact Hw|]. split; [now left|]. split; [discriminate|].
    split; [now split|discriminate]. }
  destruct (body_url req) as [url|] eqn:Hurl;
    [|unfold missing_url in Hmissing; rewrite Hurl, Hmock in Hmissing;
      discriminate].
  pose proof (scrapeProperty_keeps_records (session c) url (body_platform req)
                w Hw) as Hw'.
  pose proof (fun d => scrapeProperty_returns_record (session c) url
                         (body_platform req) w d Hw) as Hrecord.
  destruct (scrapeProperty (session c) url (body_platform req) w)
    as [[d|e] w'] eqn:Hrun; cbn [fst snd] in *.
  - destruct (parsed_record_enriches h d (Hrecord d eq_refl))
      as (fields & pv & price & rent & ra & _ & _ & _ & _ & _ & _ & Hcalc).
    destruct (analyse_enriched h c req _ _ Hcalc) as (response & -> & Hstatus).
    cbn [server_error]. rewrite Hstatus.
    split; [exact Hw'|]. split; [now left|]. split; [discriminate|].
    split; [discriminate|]. intros _ _ url' [= <-]. rewrite Hrun.
    cbn [fst snd]. split; [reflexivity|]. split; [reflexivity|discriminate].
  - split; [exact Hw'|]. split; [now right|]. split; [discriminate|].
    split; [discriminate|]. intros _ _ url' [= <-]. rewrite Hrun.
    cbn [fst snd]. split; [reflexivity|]. split; [discriminate|].
    now intros e' [= <-].
Qed.

(* ================================================================== *)
(** * The further properties at work on the samples *)





Lemma price_is_the_digits_witness :
  querySelector priced_page ".re-DetailHeader-price"
  = Some (Element "450.000 EUR" None [])
  /\ exists price,
       extract_price priced_page ".re-DetailHeader-price" = VNumber price
       /\ all_digits "450000" = true /\ 0 <= digits_value 0 "450000"
       /\ price = Z_to_float (digits_value 0 "450000").
Proof.
  split; [reflexivity|].
  apply (price_is_the_digits priced_page ".re-DetailHeader-price"
           (Element "450.000 EUR" None [])).
  reflexivity.
Defined.

Lemma browser_session_is_released_witness :
  let url := "https://www.zoopla.co.uk/for-sale/details/1" in
  cache_hit (sample_session 1714557600000) ("zoopla" +:+ ":" +:+ url)
    empty_world = None
  /\ launch (sample_session 1714557600000) = Ok tt
  /\ browser_log
       (scrapeProperty (sample_session 1714557600000) url "zoopla"
          empty_world).2
     = browser_log empty_world ++ [Launch; Navigate url; Close].
Proof.
  intros url. split; [reflexivity|]. split; [reflexivity|].
  apply (proj1 (browser_session_is_released (sample_session 1714557600000)
                  url "zoopla" empty_world eq_refl)).
  reflexivity.
Defined.

Lemma failed_scrape_and_the_cache_witness :
  let url := "https://www.zoopla.co.uk/for-sale/details/1" in
  let run := scrapeProperty (sample_session 1714557600000) url "zoopla"
               empty_world in
  cache_hit (sample_session 1714557600000) ("zoopla" +:+ ":" +:+ url)
    empty_world = None
  /\ run.1 = Throw (Error "Unsupported platform: zoopla")
  /\ (propertyCache run.2 = propertyCache empty_world
      \/ exists d,
           (let* page := load (sample_session 1714557600000) url in
            dispatch "zoopla" page (iso_now (sample_session 1714557600000)))
           = Ok d
           /\ close (sample_session 1714557600000)
              = Throw (Error "Unsupported platform: zoopla")
           /\ propertyCache run.2
              = <["zoopla" +:+ ":" +:+ url
                  := {| timestamp := now_at_store (sample_session 1714557600000);
                        data := d |}]>
                  (propertyCache empty_world)).
Proof.
  intros url run. split; [reflexivity|]. split; [reflexivity|].
  apply (failed_scrape_and_the_cache (sample_session 1714557600000) url
           "zoopla" empty_world); reflexivity.
Defined.

Lemma close_failure_still_caches_witness :
  let url := "https://www.fotocasa.es/vivienda/1" in
  let s := failing_close_session 1714557600000 in
  cache_hit s ("fotocasa" +:+ ":" +:+ url) empty_world = None
  /\ close s = Throw (HostError "Target closed")
  /\ exists d w',
       dispatch "fotocasa" empty_page (iso_now s) = Ok d
       /\ scrapeProperty s url "fotocasa" empty_world
          = (Throw (HostError "Target closed"), w')
       /\ scrapeProperty (sample_session 1714557660000) url "fotocasa" w'
          = (Ok d, w').
Proof.
  intros url s. split; [reflexivity|]. split; [reflexivity|].
  eexists.
  destruct (close_failure_still_caches s url "fotocasa" empty_world empty_page
              _ (HostError "Target closed") eq_refl eq_refl eq_refl eq_refl
              eq_refl) as (w' & Hrun & Hnext).
  exists w'. split; [reflexivity|]. split; [exact Hrun|].
  apply Hnext. vm_compute. reflexivity.
Defined.


Lemma platform_case_splits_the_cache_witness :
  let url := "https://www.fotocasa.es/vivienda/1" in
  let first := scrapeProperty (sample_session 1714557600000) url "Fotocasa"
                 empty_world in
  "Fotocasa" <> "fotocasa"
  /\ toLowerCase "Fotocasa" = toLowerCase "fotocasa"
  /\ supported "Fotocasa" = true
  /\ propertyCache empty_world !! ("fotocasa" +:+ ":" +:+ url) = None
  /\ (forall page scrapedAt,
        dispatch "Fotocasa" page scrapedAt = dispatch "fotocasa" page scrapedAt)
  /\ exists rest,
       browser_log
         (scrapeProperty (sample_session 1714557660000) url "fotocasa"
            first.2).2
       = browser_log first.2 ++ Launch :: rest.
Proof.
  intros url first.
  split; [discriminate|]. split; [reflexivity|]. split; [reflexivity|].
  split; [reflexivity|].
  destruct (platform_case_splits_the_cache (sample_session 1714557600000)
              (sample_session 1714557660000) url "Fotocasa" "fotocasa"
              empty_world) as [Hsame Hmiss];
    [discriminate|reflexivity|reflexivity|].
  split; [exact Hsame|]. apply Hmiss. reflexivity.
Defined.

Lemma colliding_keys_share_an_entry_witness :
  let first := scrapeProperty (sample_session 1714557600000)
                 "es:https://www.fotocasa.es/vivienda/1" "fotocasa"
                 empty_world in
  "fotocasa" +:+ ":" +:+ "es:https://www.fotocasa.es/vivienda/1"
  = "fotocasa:es" +:+ ":" +:+ "https://www.fotocasa.es/vivienda/1"
  /\ supported "fotocasa:es" = false
  /\ exists d,
       first.1 = Ok d
       /\ scrapeProperty (sample_session 1714557660000)
            "https://www.fotocasa.es/vivienda/1" "fotocasa:es" first.2
          = (Ok d, first.2).
Proof.
  intros first. split; [reflexivity|]. split; [reflexivity|].
  destruct first as [[d|e] w1] eqn:Hfirst;
    [|vm_compute in Hfirst; discriminate Hfirst].
  exists d. split; [reflexivity|].
  apply (colliding_keys_share_an_entry (sample_session 1714557600000)
           (sample_session 1714557660000)
           "es:https://www.fotocasa.es/vivienda/1" "fotocasa"
           "https://www.fotocasa.es/vivienda/1" "fotocasa:es" empty_world d w1);
    [reflexivity|reflexivity|exact Hfirst|vm_compute; reflexivity].
Defined.

Lemma enrichment_needs_a_string_location_witness :
  let fields := [("purchasePrice", VNumber 450000);
                 ("estimatedMonthlyRent", VNumber 1950);
                 ("squareMeters", VNumber 90)] in
  (forall s, lookup_field "location" fields <> VString s)
  /\ assessRisk sample_host (VObject fields) = Throw TypeError
  /\ calculateInvestmentMetrics sample_host (VObject fields) = Throw TypeError.
Proof.
  intros fields. split; [discriminate|].
  apply (enrichment_needs_a_string_location sample_host fields 1950 450000 90);
    [discriminate|reflexivity|reflexivity|reflexivity].
Defined.

Lemma reported_yields_agree_witness :
  property_record example_property "Madrid" 450000 1950 90
  /\ exists r fm ra factors yield,
       calculateInvestmentMetrics sample_host example_property = Ok r
       /\ get r "financialMetrics" = Ok fm
       /\ get fm "rentalYield" = Ok (VNumber yield)
       /\ get r "riskAssessment" = Ok ra
       /\ get ra "factors" = Ok factors
       /\ get factors "rentalYield" = Ok (VNumber yield).
Proof.
  split; [repeat split|].
  apply (reported_yields_agree sample_host example_property "Madrid"
           450000 1950 90).
  repeat split.
Defined.

Lemma scraped_listings_have_no_price_per_area_witness :
  exists r enriched fm,
    parseFotocasa priced_page "2024-05-01T10:00:00.000Z" = Ok r
    /\ get r "purchasePrice" = Ok (VNumber 450000)
    /\ calculateInvestmentMetrics sample_host r = Ok enriched
    /\ get enriched "financialMetrics" = Ok fm
    /\ get fm "pricePerSquareMeter" = Ok (VNumber infinity).
Proof.
  eexists.
  destruct (scraped_listings_have_no_price_per_area sample_host _
              (parseFotocasa_record priced_page "2024-05-01T10:00:00.000Z" _
                 eq_refl)) as (enriched & fm & Hcalc & Hfm & Hprice).
  exists enriched, fm. split; [by_evaluation|]. split; [reflexivity|].
  split; [exact Hcalc|]. split; [exact Hfm|].
  destruct (Hprice 450000%float eq_refl) as [Hquot Hinf].
  rewrite <- (Hinf eq_refl). exact Hquot.
Defined.

Lemma unpriced_listing_scores_nan_witness :
  exists r enriched,
    parseFotocasa empty_page "2024-05-01T10:00:00.000Z" = Ok r
    /\ get r "estimatedMonthlyRent" = Ok VUndefined
    /\ calculateInvestmentMetrics sample_host r = Ok enriched
    /\ exists analysis,
         generateAIAnalysis sample_host enriched
         = Ok (VObject [("score", VNumber nan); ("analysis", VString analysis)]).
Proof.
  eexists.
  destruct (unpriced_listing_scores_nan sample_host _
              (parseFotocasa_record empty_page "2024-05-01T10:00:00.000Z" _
                 eq_refl) eq_refl) as (enriched & fm & Hcalc & _ & _ & Hscore).
  exists enriched. split; [by_evaluation|]. split; [reflexivity|].
  split; [exact Hcalc|]. apply Hscore. reflexivity.
Defined.

Lemma ai_score_is_a_written_number_witness :
  let h := answering_host sample_host "Investment Score: 250 / 100" in
  exists answer digits text,
    aiAnalysis h enriched_example = Ok (Some answer)
    /\ answer = VObject [("score", VNumber (Z_to_float (digits_value 0 digits)));
                         ("analysis", VString text)]
    /\ match_score text = Some digits
    /\ all_digits digits = true
    /\ 0 <= digits_value 0 digits.
Proof.
  intros h. eexists.
  destruct (ai_score_is_a_written_number h enriched_example _ eq_refl)
    as (digits & text & H).
  exists digits, text. split; [by_evaluation|exact H].
Defined.

Lemma no_score_in_sample_text :
  ~ contains_ci "I cannot assess this listing." "score".
Proof.
  intros H. apply includes_lower_spec in H. vm_compute in H. discriminate H.
Qed.

Lemma answer_without_score_is_set_aside_witness :
  ~ contains_ci "I cannot assess this listing." "score"
  /\ generateAIAnalysis
       (answering_host sample_host "I cannot assess this listing.")
       enriched_example
     = generateAIAnalysis (without_ai sample_host) enriched_example.
Proof.
  split; [exact no_score_in_sample_text|].
  apply (answer_without_score_is_set_aside sample_host
           "I cannot assess this listing." enriched_example).
  exact no_score_in_sample_text.
Defined.

Lemma ai_score_replaces_the_heuristic_witness :
  totalScore sample_host enriched_example = Ok 97%float
  /\ generateAIAnalysis (answering_host sample_host "Score: 250 / 100")
       enriched_example
     = Ok (VObject [("score", VNumber 250);
                    ("analysis", VString "Score: 250 / 100")]).
Proof.
  split; [by_evaluation|].
  apply (ai_score_replaces_the_heuristic sample_host enriched_example
           "Score" ": " "2" "50" " / 100" 97%float); by_evaluation.
Defined.

Lemma empty_world_holds_records : cache_holds_records empty_world.
Proof. intros key entry H. vm_compute in H. discriminate H. Qed.

Lemma cache_only_holds_parser_records_witness :
  let run := scrapeProperty (sample_session 1714557600000)
               "https://www.fotocasa.es/vivienda/1" "fotocasa" empty_world in
  cache_holds_records empty_world
  /\ cache_holds_records run.2
  /\ forall d, run.1 = Ok d -> parsed_record d.
Proof.
  intros run. split; [exact empty_world_holds_records|].
  apply (cache_only_holds_parser_records (sample_session 1714557600000)
           "https://www.fotocasa.es/vivienda/1" "fotocasa" empty_world).
  exact empty_world_holds_records.
Defined.

Lemma handler_answers_200_or_400_witness :
  let request := {| body_url := Some "https://www.fotocasa.es/vivienda/1";
                    body_platform := "fotocasa";
                    body_useMockData := false |} in
  let answer := property_analysis sample_host (sample_call 1714557600000)
                  request empty_world in
  cache_holds_records empty_world
  /\ cache_holds_records answer.2
  /\ (status answer.1 = 200 \/ status answer.1 = 400)
  /\ status answer.1 = 200.
Proof.
  intros request answer.
  destruct (handler_answers_200_or_400 sample_host (sample_call 1714557600000)
              request empty_world empty_world_holds_records)
    as (Hcache & Hstatus & _).
  split; [exact empty_world_holds_records|]. split; [exact Hcache|].
  split; [exact Hstatus|]. by_evaluation.
Defined.
